(** * Election Campaign Manager canister: a shallow embedding

    The canister of [dfinity_js_backend] keeps seven [StableBTreeMap]s and
    exposes eighteen methods on them.  The repository holds two revisions of
    it.  The complete listing (all eighteen methods and
    [notifyParticipants]) is embedded at top level and is the program the
    statements below are about.  The abridged revision of
    [src/dfinity_js_backend/src/index.ts] (the user and campaign methods
    only) does not parse as committed and cannot be built; the bodies of its
    methods are embedded in [Module IndexTs], for comparison only.

    JavaScript values are modelled as the Candid types of the method
    signatures give them: [text] is a string, [nat64] a natural number, a
    [Variant] with [Null] payloads an enumeration, a [Record] a record.
    [StableBTreeMap.get] answers with an [Opt] object, [{Some: v}] or
    [{None: null}], modelled as [option].  The identifier generator
    [uuidv4()], the clock [new Date().toISOString()] and [ic.caller()] are
    external: the world carries a tape for each of the first two and the
    caller's principal.

    After the statements about single calls come the properties of the
    canister as a whole: what each method may write, what a success
    guarantees, the order of the checks, what the queries answer, and the
    invariants of the stores over every sequence of calls. *)

From Stdlib Require Import String NArith List.
From stdpp Require Import base option list gmap strings fin_maps pretty.

Import ListNotations.
Open Scope string_scope.

(** ** Candid types *)

Definition text : Type := string.
Definition nat64 : Type := N.
Bind Scope N_scope with nat64.
Definition Principal : Type := string.

(** [const UserRole = Variant({ Admin: Null, CampaignManager: Null, Donor: Null })] *)
Inductive UserRole : Type := Admin | CampaignManager | Donor.

#[global] Instance UserRole_eq_dec : EqDecision UserRole.
Proof. solve_decision. Defined.

Module Campaign.
Record t : Type := mk
  { id : text; name : text; description : text; created_by : text;
    created_at : text; updated_at : text }.
End Campaign.

Module Donation.
Record t : Type := mk
  { id : text; campaign_id : text; donor_name : text; amount : nat64;
    created_at : text }.
End Donation.

Module Expense.
Record t : Type := mk
  { id : text; campaign_id : text; description : text; amount : nat64;
    created_at : text }.
End Expense.

Module VoterOutreach.
Record t : Type := mk
  { id : text; campaign_id : text; activity : text; date : text;
    status : text; created_at : text }.
End VoterOutreach.

Module SecureMessage.
Record t : Type := mk
  { id : text; campaign_id : text; sender : text; content : text;
    created_at : text }.
End SecureMessage.

Module Notification.
Record t : Type := mk
  { id : text; campaign_id : text; message : text; created_at : text }.
End Notification.

Module User.
Record t : Type := mk
  { id : text; owner : Principal; username : text; role : UserRole;
    points : nat64; created_at : text }.
End User.

Module CampaignPayload.
Record t : Type := mk { name : text; description : text; created_by : text }.
End CampaignPayload.

Module DonationPayload.
Record t : Type := mk { campaign_id : text; donor_name : text; amount : nat64 }.
End DonationPayload.

Module ExpensePayload.
Record t : Type := mk { campaign_id : text; description : text; amount : nat64 }.
End ExpensePayload.

Module VoterOutreachPayload.
Record t : Type := mk
  { campaign_id : text; activity : text; date : text; status : text }.
End VoterOutreachPayload.

Module MessagePayload.
Record t : Type := mk { campaign_id : text; sender : text; content : text }.
End MessagePayload.

Module UserPayload.
Record t : Type := mk { username : text; role : UserRole }.
End UserPayload.

(** [const Error = Variant({ NotFound: text, InvalidPayload: text,
    Unauthorized: text, ValidationError: text })] *)
Inductive Error : Type :=
| NotFound (msg : text)
| InvalidPayload (msg : text)
| Unauthorized (msg : text)
| ValidationError (msg : text).

Inductive ErrorTag : Type :=
  NotFoundTag | InvalidPayloadTag | UnauthorizedTag | ValidationErrorTag.

Definition error_tag (e : Error) : ErrorTag :=
  match e with
  | NotFound _ => NotFoundTag
  | InvalidPayload _ => InvalidPayloadTag
  | Unauthorized _ => UnauthorizedTag
  | ValidationError _ => ValidationErrorTag
  end.

(** [Result(T, Error)] with its constructors [Ok] and [Err]. *)
Inductive Result (A : Type) : Type :=
| Ok (a : A)
| Err (e : Error).
Arguments Ok {A} a.
Arguments Err {A} e.

(** ** JavaScript fragments the methods rely on *)

(** [!s] on a string: only the empty string is falsy. *)
Definition js_not_text (s : text) : bool :=
  match s with
  | EmptyString => true
  | String _ _ => false
  end.

(** [!o] on an object ([{Admin: null}], [{None: null}], [{Some: v}], a
    record): every object is truthy. *)
Definition js_not_object {A : Type} (o : A) : bool := false.

(** [o === null] on an object: an object is never [null]. *)
Definition js_object_is_null {A : Type} (o : A) : bool := false.

(** [!u] on the result of [Array.prototype.find]: [undefined] when nothing
    matched, the (truthy) element otherwise. *)
Definition js_not_found {A : Type} (u : option A) : bool :=
  match u with
  | Some _ => false
  | None => true
  end.

(** ["None" in opt] on an [Opt] object. *)
Definition None_in {A : Type} (opt : option A) : bool :=
  match opt with
  | Some _ => false
  | None => true
  end.

(** The value of a property read [role.Tag] on a variant object whose
    payloads are [Null]: [null] for the tag the object carries, [undefined]
    for any other name. *)
Inductive JsProp : Type := JsNull | JsUndefined.

Definition role_prop (tag : UserRole) (r : UserRole) : JsProp :=
  if decide (r = tag) then JsNull else JsUndefined.

(** [v !== null]. *)
Definition js_strict_ne_null (v : JsProp) : bool :=
  match v with
  | JsNull => false
  | JsUndefined => true
  end.

(** ["Tag" in role]. *)
Definition tag_in (tag : UserRole) (r : UserRole) : bool :=
  bool_decide (r = tag).

(** [a <= 0n] on a [nat64]. *)
Definition le_0n (a : nat64) : bool := (a <=? 0)%N.

(** ** The seven stores and the world around them *)

Record Stores : Type := mkStores
  { campaigns : gmap text Campaign.t;
    donations : gmap text Donation.t;
    expenses : gmap text Expense.t;
    outreaches : gmap text VoterOutreach.t;
    messages : gmap text SecureMessage.t;
    notifications : gmap text Notification.t;
    users : gmap text User.t }.

(** The world of one canister call: the stores, the identifiers [uuidv4()]
    will hand out ([uuid_tape] read at [uuid_pos]), the readings the clock
    will give ([clock_tape] read at [clock_pos]), and the caller. *)
Record World : Type := mkWorld
  { stores : Stores;
    uuid_tape : nat → text;
    uuid_pos : nat;
    clock_tape : nat → text;
    clock_pos : nat;
    caller : Principal }.

Definition set_stores (f : Stores → Stores) (w : World) : World :=
  mkWorld (f (stores w)) (uuid_tape w) (uuid_pos w) (clock_tape w)
          (clock_pos w) (caller w).

(** ** Completions and the call monad *)

Inductive JsError : Type := TypeError (msg : text).

(** A JavaScript function body either completes with a value or throws. *)
Inductive Completion (A : Type) : Type :=
| Returns (a : A)
| Throws (e : JsError).
Arguments Returns {A} a.
Arguments Throws {A} e.

Definition M (A : Type) : Type := World → Completion A * World.

Definition ret {A : Type} (a : A) : M A := λ w, (Returns a, w).

Definition throw {A : Type} (e : JsError) : M A := λ w, (Throws e, w).

Definition bind {A B : Type} (m : M A) (k : A → M B) : M B :=
  λ w, match m w with
       | (Returns a, w') => k a w'
       | (Throws e, w') => (Throws e, w')
       end.

Declare Scope call_scope.
Delimit Scope call_scope with call.
Notation "'let*' x ':=' m 'in' k" := (bind m (λ x, k))
  (at level 10, x name, m at level 100, k at level 200,
   format "'[v' 'let*'  x  ':='  m  'in' '/' k ']'") : call_scope.
Notation "m ';;' k" := (bind m (λ _, k))
  (at level 100, k at level 200, right associativity,
   format "'[v' m ';;' '/' k ']'") : call_scope.
Open Scope call_scope.

(** [uuidv4()] *)
Definition uuidv4 : M text :=
  λ w, (Returns (uuid_tape w (uuid_pos w)),
        mkWorld (stores w) (uuid_tape w) (S (uuid_pos w)) (clock_tape w)
                (clock_pos w) (caller w)).

(** [new Date().toISOString()] *)
Definition Date_toISOString : M text :=
  λ w, (Returns (clock_tape w (clock_pos w)),
        mkWorld (stores w) (uuid_tape w) (uuid_pos w) (clock_tape w)
                (S (clock_pos w)) (caller w)).

(** [ic.caller()] *)
Definition ic_caller : M Principal := λ w, (Returns (caller w), w).

(** A [StableBTreeMap] handle: which field of [Stores] it reads and writes. *)
Record StableBTreeMap (V : Type) : Type := mkMap
  { contents : Stores → gmap text V;
    replace_contents : gmap text V → Stores → Stores }.
Arguments contents {V} _ _.
Arguments replace_contents {V} _ _ _.

Module Map.

(** [map.get(key)]: an [Opt]. *)
Definition get {V : Type} (map : StableBTreeMap V) (key : text)
  : M (option V) :=
  λ w, (Returns (contents map (stores w) !! key), w).

(** The values of a map, each once.  They come in the order [gmap]
    enumerates its keys, which is not the key order in which
    [StableBTreeMap.values()] lists them: a list of several values may come
    out in another order here than in the canister, and among users that
    share a username [find] may meet another one first.  The statements of
    this file are about membership, length and single matches; none fixes an
    order. *)
Definition values_of {V : Type} (m : gmap text V) : list V :=
  (map_to_list m).*2.

(** [map.values()] *)
Definition values {V : Type} (map : StableBTreeMap V) : M (list V) :=
  λ w, (Returns (values_of (contents map (stores w))), w).

(** [map.insert(key, value)]: inserts or replaces under [key]. *)
Definition insert {V : Type} (map : StableBTreeMap V) (key : text)
  (value : V) : M unit :=
  λ w, (Returns tt,
        set_stores
          (λ s, replace_contents map (<[key := value]> (contents map s)) s)
          w).

End Map.

(** [const campaignStorage = StableBTreeMap(0, text, Campaign)] and its six
    siblings. *)
Definition campaignStorage : StableBTreeMap Campaign.t :=
  mkMap _ campaigns
    (λ m s, mkStores m (donations s) (expenses s) (outreaches s) (messages s)
                     (notifications s) (users s)).
Definition donationStorage : StableBTreeMap Donation.t :=
  mkMap _ donations
    (λ m s, mkStores (campaigns s) m (expenses s) (outreaches s) (messages s)
                     (notifications s) (users s)).
Definition expenseStorage : StableBTreeMap Expense.t :=
  mkMap _ expenses
    (λ m s, mkStores (campaigns s) (donations s) m (outreaches s) (messages s)
                     (notifications s) (users s)).
Definition outreachStorage : StableBTreeMap VoterOutreach.t :=
  mkMap _ outreaches
    (λ m s, mkStores (campaigns s) (donations s) (expenses s) m (messages s)
                     (notifications s) (users s)).
Definition messageStorage : StableBTreeMap SecureMessage.t :=
  mkMap _ messages
    (λ m s, mkStores (campaigns s) (donations s) (expenses s) (outreaches s) m
                     (notifications s) (users s)).
Definition notificationStorage : StableBTreeMap Notification.t :=
  mkMap _ notifications
    (λ m s, mkStores (campaigns s) (donations s) (expenses s) (outreaches s)
                     (messages s) m (users s)).
Definition userStorage : StableBTreeMap User.t :=
  mkMap _ users
    (λ m s, mkStores (campaigns s) (donations s) (expenses s) (outreaches s)
                     (messages s) (notifications s) m).

(** [opt.Some.field]: when [opt] is [{None: null}], [opt.Some] is
    [undefined] and reading a property of it throws a [TypeError]. *)
Definition Some_field {A B : Type} (opt : option A) (field : A → B)
  (fname : text) : M B :=
  match opt with
  | Some a => ret (field a)
  | None =>
      throw (TypeError ("cannot read property '" ++ fname ++ "' of undefined"))
  end.

(** [`${UserPayload.username}`]: the template of [getUserByUsername] names
    the field descriptor of the payload type, azle's [text], not the
    argument.  What the descriptor renders as is decided by the azle
    library, which is not part of the repository: it is taken as some fixed
    text, sealed, so that nothing can be stated about the message beyond its
    tag. *)
Definition UserPayload_username_rendered : text.
Proof. exact "class AzleText". Qed.

(** ** The canister methods *)

(** [function notifyParticipants(campaignId, message)].  The object literal
    reads the clock twice; [updated_at] is not a field of [Notification] and
    is not stored. *)
Definition notifyParticipants (campaignId message : text) : M unit :=
  let* notificationId := uuidv4 in
  let* created_at := Date_toISOString in
  let* updated_at := Date_toISOString in
  let notification :=
    Notification.mk notificationId campaignId message created_at in
  Map.insert notificationStorage notificationId notification.

(** *** User management *)

Definition createUser (payload : UserPayload.t) : M (Result User.t) :=
  if js_not_object (UserPayload.role payload)
     || js_not_object (UserPayload.role payload)
  then ret (Err (InvalidPayload " Ensure all required fields are provided!"))
  else
    let* all_users := Map.values userStorage in
    let existingUser :=
      List.find
        (λ user, (User.username user =? UserPayload.username payload)%string)
        all_users in
    if negb (js_not_found existingUser)
    then ret (Err (ValidationError
                     "Username already exists 😲 🤯 😮 😱 😳 ✨, try another one"))
    else
      let* userId := uuidv4 in
      let* owner := ic_caller in
      let* created_at := Date_toISOString in
      let user :=
        User.mk userId owner (UserPayload.username payload)
                (UserPayload.role payload) 0%N created_at in
      Map.insert userStorage userId user;;
      ret (Ok user).

Definition getUsers : M (Result (list User.t)) :=
  let* all_users := Map.values userStorage in
  if (length all_users =? 0)%nat
  then ret (Err (NotFound "No users found"))
  else ret (Ok all_users).

Definition getUserByUsername (username : text) : M (Result User.t) :=
  let* all_users := Map.values userStorage in
  let user :=
    List.find (λ user, (User.username user =? username)%string) all_users in
  match user with
  | None =>
      ret (Err (NotFound ("User with username "
                            ++ UserPayload_username_rendered ++ " not found")))
  | Some user => ret (Ok user)
  end.

(** The callback of the [filter] in [getUsersByRole]. *)
Definition role_filter (role : UserRole) (user : User.t) : bool :=
  if js_strict_ne_null (role_prop Admin role)
  then js_strict_ne_null (role_prop Admin (User.role user))
  else if js_strict_ne_null (role_prop CampaignManager role)
  then js_strict_ne_null (role_prop CampaignManager (User.role user))
  else false.

Definition getUsersByRole (role : UserRole) : M (Result (list User.t)) :=
  let* all_users := Map.values userStorage in
  let matching := List.filter (role_filter role) all_users in
  if (length matching =? 0)%nat
  then ret (Err (NotFound "No users found with the specified role"))
  else ret (Ok matching).

(** *** Campaign management *)

Definition createCampaign (payload : CampaignPayload.t)
  : M (Result Campaign.t) :=
  if js_not_text (CampaignPayload.name payload)
     || js_not_text (CampaignPayload.description payload)
  then ret (Err (InvalidPayload "Ensure 'name' and 'description' are provided"))
  else
    let* userOpt := Map.get userStorage (CampaignPayload.created_by payload) in
    if js_object_is_null userOpt
    then ret (Err (NotFound ("User with ID "
                               ++ CampaignPayload.created_by payload
                               ++ " not found")))
    else
      let* role := Some_field userOpt User.role "role" in
      let hasValidRole := tag_in Admin role || tag_in CampaignManager role in
      if negb hasValidRole
      then ret (Err (Unauthorized
                       "Only Admins and Campaign Managers can create campaigns"))
      else
        let* campaignId := uuidv4 in
        let* timestamp := Date_toISOString in
        let* created_at := Date_toISOString in
        let campaign :=
          Campaign.mk campaignId (CampaignPayload.name payload)
                      (CampaignPayload.description payload)
                      (CampaignPayload.created_by payload)
                      created_at timestamp in
        Map.insert campaignStorage campaignId campaign;;
        notifyParticipants campaignId "New campaign created.";;
        ret (Ok campaign).

Definition updateCampaign (campaignId : text) (payload : CampaignPayload.t)
  : M (Result Campaign.t) :=
  let* existingCampaignOpt := Map.get campaignStorage campaignId in
  match existingCampaignOpt with
  | None =>
      ret (Err (NotFound ("Campaign with ID " ++ campaignId ++ " not found")))
  | Some existingCampaign =>
      if js_not_text (CampaignPayload.name payload)
         || js_not_text (CampaignPayload.description payload)
      then ret (Err (InvalidPayload
                       "Ensure 'name' and 'description' are provided"))
      else
        let* userOpt :=
          Map.get userStorage (CampaignPayload.created_by payload) in
        if None_in userOpt
        then ret (Err (NotFound ("User with ID "
                                   ++ CampaignPayload.created_by payload
                                   ++ " not found")))
        else
          let* role := Some_field userOpt User.role "role" in
          let hasValidRole :=
            tag_in Admin role || tag_in CampaignManager role in
          if negb hasValidRole
          then ret (Err (Unauthorized
                     "Only Admins and Campaign Managers can update campaigns"))
          else
            let* updated_at := Date_toISOString in
            let updatedCampaign :=
              Campaign.mk (Campaign.id existingCampaign)
                          (CampaignPayload.name payload)
                          (CampaignPayload.description payload)
                          (CampaignPayload.created_by payload)
                          (Campaign.created_at existingCampaign)
                          updated_at in
            Map.insert campaignStorage campaignId updatedCampaign;;
            notifyParticipants campaignId "Campaign updated.";;
            ret (Ok updatedCampaign)
  end.

Definition getCampaigns : M (Result (list Campaign.t)) :=
  let* all_campaigns := Map.values campaignStorage in
  if (length all_campaigns =? 0)%nat
  then ret (Err (NotFound "No campaigns found"))
  else ret (Ok all_campaigns).

Definition getCampaignById (campaignId : text) : M (Result Campaign.t) :=
  let* campaignOpt := Map.get campaignStorage campaignId in
  match campaignOpt with
  | None =>
      ret (Err (NotFound ("Campaign with ID " ++ campaignId ++ " not found")))
  | Some campaign => ret (Ok campaign)
  end.

(** *** Donations *)

Definition createDonation (payload : DonationPayload.t)
  (userPayload : UserPayload.t) : M (Result Donation.t) :=
  let* all_users := Map.values userStorage in
  let user :=
    List.find
      (λ u, (User.username u =? UserPayload.username userPayload)%string)
      all_users in
  match user with
  | None => ret (Err (Unauthorized "User not found"))
  | Some user =>
      if negb (tag_in Donor (User.role user))
      then ret (Err (Unauthorized "Only donors can create donations"))
      else if js_not_text (DonationPayload.donor_name payload)
              || le_0n (DonationPayload.amount payload)
      then ret (Err (InvalidPayload
                       "Ensure donor name and valid amount are provided"))
      else
        let* campaignOpt :=
          Map.get campaignStorage (DonationPayload.campaign_id payload) in
        if None_in campaignOpt
        then ret (Err (NotFound "Campaign not found"))
        else
          let* donationId := uuidv4 in
          let* timestamp := Date_toISOString in
          let donation :=
            Donation.mk donationId (DonationPayload.campaign_id payload)
                        (DonationPayload.donor_name payload)
                        (DonationPayload.amount payload) timestamp in
          Map.insert donationStorage donationId donation;;
          notifyParticipants (Donation.campaign_id donation)
                             "New donation received.";;
          ret (Ok donation)
  end.

Definition getDonationById (donationId : text) : M (Result Donation.t) :=
  let* donationOpt := Map.get donationStorage donationId in
  match donationOpt with
  | None =>
      ret (Err (NotFound ("Donation with ID " ++ donationId ++ " not found")))
  | Some donation =>
      let* campaignOpt :=
        Map.get campaignStorage (Donation.campaign_id donation) in
      if None_in campaignOpt
      then ret (Err (NotFound
                       ("Associated campaign with ID "
                          ++ Donation.campaign_id donation
                          ++ " not found. The campaign may have been deleted.")))
      else ret (Ok donation)
  end.

Definition getDonationsByCampaignId (campaignId : text)
  : M (Result (list Donation.t)) :=
  let* all_donations := Map.values donationStorage in
  let matching :=
    List.filter
      (λ donation, (Donation.campaign_id donation =? campaignId)%string)
      all_donations in
  if (length matching =? 0)%nat
  then ret (Err (NotFound "No donations found for this campaign"))
  else ret (Ok matching).

(** *** Expenses *)

Definition createExpense (payload : ExpensePayload.t)
  (userPayload : UserPayload.t) : M (Result Expense.t) :=
  let* all_users := Map.values userStorage in
  let user :=
    List.find
      (λ u, (User.username u =? UserPayload.username userPayload)%string)
      all_users in
  match user with
  | None => ret (Err (Unauthorized "User not found"))
  | Some user =>
      if negb (tag_in Admin (User.role user))
      then ret (Err (Unauthorized "Only admins can create expenses"))
      else if js_not_text (ExpensePayload.description payload)
              || le_0n (ExpensePayload.amount payload)
      then ret (Err (InvalidPayload
                       "Ensure description and valid amount are provided"))
      else
        let* campaign :=
          Map.get campaignStorage (ExpensePayload.campaign_id payload) in
        if js_not_object campaign
        then ret (Err (NotFound "Campaign not found"))
        else
          let* expenseId := uuidv4 in
          let* timestamp := Date_toISOString in
          let expense :=
            Expense.mk expenseId (ExpensePayload.campaign_id payload)
                       (ExpensePayload.description payload)
                       (ExpensePayload.amount payload) timestamp in
          Map.insert expenseStorage expenseId expense;;
          notifyParticipants (Expense.campaign_id expense)
                             "New expense recorded.";;
          ret (Ok expense)
  end.

Definition getExpensesByCampaignId (campaignId : text)
  : M (Result (list Expense.t)) :=
  let* all_expenses := Map.values expenseStorage in
  let matching :=
    List.filter
      (λ expense, (Expense.campaign_id expense =? campaignId)%string)
      all_expenses in
  if (length matching =? 0)%nat
  then ret (Err (NotFound "No expenses found for this campaign"))
  else ret (Ok matching).

(** *** Voter outreach *)

Definition createVoterOutreach (payload : VoterOutreachPayload.t)
  (userPayload : UserPayload.t) : M (Result VoterOutreach.t) :=
  let* all_users := Map.values userStorage in
  let user :=
    List.find
      (λ u, (User.username u =? UserPayload.username userPayload)%string)
      all_users in
  if js_not_found user
  then ret (Err (Unauthorized "Invalid credentials"))
  else if js_not_text (VoterOutreachPayload.activity payload)
          || js_not_text (VoterOutreachPayload.date payload)
          || js_not_text (VoterOutreachPayload.status payload)
  then ret (Err (InvalidPayload
                   "Ensure activity, date and status are provided"))
  else
    let* campaign :=
      Map.get campaignStorage (VoterOutreachPayload.campaign_id payload) in
    if js_not_object campaign
    then ret (Err (NotFound "Campaign not found"))
    else
      let* outreachId := uuidv4 in
      let* created_at := Date_toISOString in
      let outreach :=
        VoterOutreach.mk outreachId (VoterOutreachPayload.campaign_id payload)
                         (VoterOutreachPayload.activity payload)
                         (VoterOutreachPayload.date payload)
                         (VoterOutreachPayload.status payload) created_at in
      Map.insert outreachStorage outreachId outreach;;
      notifyParticipants (VoterOutreach.campaign_id outreach)
                         "New voter outreach recorded.";;
      ret (Ok outreach).

Definition getVoterOutreachByCampaignId (campaignId : text)
  : M (Result (list VoterOutreach.t)) :=
  let* all_outreaches := Map.values outreachStorage in
  let matching :=
    List.filter
      (λ outreach, (VoterOutreach.campaign_id outreach =? campaignId)%string)
      all_outreaches in
  if (length matching =? 0)%nat
  then ret (Err (NotFound "No voter outreach found for this campaign"))
  else ret (Ok matching).

(** *** Secure messages *)

Definition createMessage (payload : MessagePayload.t)
  (userPayload : UserPayload.t) : M (Result SecureMessage.t) :=
  let* all_users := Map.values userStorage in
  let user :=
    List.find
      (λ u, (User.username u =? UserPayload.username userPayload)%string)
      all_users in
  if js_not_found user
  then ret (Err (Unauthorized "Invalid credentials"))
  else if js_not_text (MessagePayload.sender payload)
          || js_not_text (MessagePayload.content payload)
  then ret (Err (InvalidPayload "Ensure sender and content are provided"))
  else
    let* sender := Map.get userStorage (MessagePayload.sender payload) in
    if None_in sender
    then ret (Err (NotFound ("Sender with ID "
                               ++ MessagePayload.sender payload
                               ++ " not found")))
    else
      let* campaign :=
        Map.get campaignStorage (MessagePayload.campaign_id payload) in
      if None_in campaign
      then ret (Err (NotFound "Campaign not found"))
      else
        let* messageId := uuidv4 in
        let* created_at := Date_toISOString in
        let message :=
          SecureMessage.mk messageId (MessagePayload.campaign_id payload)
                           (MessagePayload.sender payload)
                           (MessagePayload.content payload) created_at in
        Map.insert messageStorage messageId message;;
        notifyParticipants (SecureMessage.campaign_id message)
                           "New message sent.";;
        ret (Ok message).

Definition getMessagesBycampaignId (campaignId : text)
  : M (Result (list SecureMessage.t)) :=
  let* all_messages := Map.values messageStorage in
  let matching :=
    List.filter
      (λ message, (SecureMessage.campaign_id message =? campaignId)%string)
      all_messages in
  if (length matching =? 0)%nat
  then ret (Err (NotFound "No messages found for this campaign"))
  else ret (Ok matching).

(** *** Notifications *)

Definition getNotificationsByCampaignId (campaignId : text)
  : M (Result (list Notification.t)) :=
  let* all_notifications := Map.values notificationStorage in
  let matching :=
    List.filter
      (λ notification,
         (Notification.campaign_id notification =? campaignId)%string)
      all_notifications in
  if (length matching =? 0)%nat
  then ret (Err (NotFound "No notifications found for this campaign"))
  else ret (Ok matching).

(** ** The canister as a whole

    [Canister({...})] is the table of the eighteen methods.  A request names
    a method with its arguments; the reply is the method's [Result]. *)

Inductive Request : Type :=
| CreateUser (payload : UserPayload.t)
| GetUsers
| GetUserByUsername (username : text)
| GetUsersByRole (role : UserRole)
| CreateCampaign (payload : CampaignPayload.t)
| UpdateCampaign (campaignId : text) (payload : CampaignPayload.t)
| GetCampaigns
| GetCampaignById (campaignId : text)
| CreateDonation (payload : DonationPayload.t) (userPayload : UserPayload.t)
| GetDonationById (donationId : text)
| GetDonationsByCampaignId (campaignId : text)
| CreateExpense (payload : ExpensePayload.t) (userPayload : UserPayload.t)
| GetExpensesByCampaignId (campaignId : text)
| CreateVoterOutreach (payload : VoterOutreachPayload.t)
                      (userPayload : UserPayload.t)
| GetVoterOutreachByCampaignId (campaignId : text)
| CreateMessage (payload : MessagePayload.t) (userPayload : UserPayload.t)
| GetMessagesBycampaignId (campaignId : text)
| GetNotificationsByCampaignId (campaignId : text).

Inductive Value : Type :=
| UserValue (u : User.t)
| UsersValue (us : list User.t)
| CampaignValue (c : Campaign.t)
| CampaignsValue (cs : list Campaign.t)
| DonationValue (d : Donation.t)
| DonationsValue (ds : list Donation.t)
| ExpenseValue (e : Expense.t)
| ExpensesValue (es : list Expense.t)
| OutreachValue (o : VoterOutreach.t)
| OutreachesValue (os : list VoterOutreach.t)
| MessageValue (m : SecureMessage.t)
| MessagesValue (ms : list SecureMessage.t)
| NotificationsValue (ns : list Notification.t).

Definition map_result {A B : Type} (f : A → B) (r : Result A) : Result B :=
  match r with
  | Ok a => Ok (f a)
  | Err e => Err e
  end.

Definition reply {A : Type} (inj : A → Value) (m : M (Result A))
  : M (Result Value) :=
  let* r := m in ret (map_result inj r).

Definition Canister (req : Request) : M (Result Value) :=
  match req with
  | CreateUser payload => reply UserValue (createUser payload)
  | GetUsers => reply UsersValue getUsers
  | GetUserByUsername username =>
      reply UserValue (getUserByUsername username)
  | GetUsersByRole role => reply UsersValue (getUsersByRole role)
  | CreateCampaign payload => reply CampaignValue (createCampaign payload)
  | UpdateCampaign campaignId payload =>
      reply CampaignValue (updateCampaign campaignId payload)
  | GetCampaigns => reply CampaignsValue getCampaigns
  | GetCampaignById campaignId =>
      reply CampaignValue (getCampaignById campaignId)
  | CreateDonation payload userPayload =>
      reply DonationValue (createDonation payload userPayload)
  | GetDonationById donationId =>
      reply DonationValue (getDonationById donationId)
  | GetDonationsByCampaignId campaignId =>
      reply DonationsValue (getDonationsByCampaignId campaignId)
  | CreateExpense payload userPayload =>
      reply ExpenseValue (createExpense payload userPayload)
  | GetExpensesByCampaignId campaignId =>
      reply ExpensesValue (getExpensesByCampaignId campaignId)
  | CreateVoterOutreach payload userPayload =>
      reply OutreachValue (createVoterOutreach payload userPayload)
  | GetVoterOutreachByCampaignId campaignId =>
      reply OutreachesValue (getVoterOutreachByCampaignId campaignId)
  | CreateMessage payload userPayload =>
      reply MessageValue (createMessage payload userPayload)
  | GetMessagesBycampaignId campaignId =>
      reply MessagesValue (getMessagesBycampaignId campaignId)
  | GetNotificationsByCampaignId campaignId =>
      reply NotificationsValue (getNotificationsByCampaignId campaignId)
  end.

(** The methods declared with [update]; the others are declared with
    [query]. *)
Definition is_update (req : Request) : bool :=
  match req with
  | CreateUser _ | CreateCampaign _ | UpdateCampaign _ _ | CreateDonation _ _
  | CreateExpense _ _ | CreateVoterOutreach _ _ | CreateMessage _ _ => true
  | _ => false
  end.

(** ** The abridged revision, [src/dfinity_js_backend/src/index.ts]

    The file holds the user and campaign methods only, and its own
    [notifyParticipants].  As committed it does not parse: it declares
    [function notifyParticipants] inside the object literal passed to
    [Canister], so this revision cannot be built or called.  The module
    embeds the bodies of the methods as they are written, with that
    declaration read as the helper the methods call; it is kept for
    comparison with the listing above and no property of the canister is
    drawn from it.  Types, stores and the call monad are shared with the
    listing above. *)

(** The name under which a variant object carries its payload. *)
Definition tag_name (r : UserRole) : text :=
  match r with
  | Admin => "Admin"
  | CampaignManager => "CampaignManager"
  | Donor => "Donor"
  end.

(** [key in role] for a string [key]. *)
Definition key_in (key : text) (r : UserRole) : bool :=
  (key =? tag_name r)%string.

(** The property key an object is converted to on the left of [in]. *)
Definition object_as_key {A : Type} (o : A) : text := "[object Object]".

Module IndexTs.

Definition notifyParticipants (campaignId message : text) : M unit :=
  let* notificationId := uuidv4 in
  let* created_at := Date_toISOString in
  Map.insert notificationStorage notificationId
    (Notification.mk notificationId campaignId message created_at).

Definition createUser (payload : UserPayload.t) : M (Result User.t) :=
  if js_not_text (UserPayload.username payload)
     || js_not_object (UserPayload.role payload)
  then ret (Err (InvalidPayload "Ensure all required fields are provided."))
  else
    let* all_users := Map.values userStorage in
    let existingUser :=
      List.find
        (λ user, (User.username user =? UserPayload.username payload)%string)
        all_users in
    if negb (js_not_found existingUser)
    then ret (Err (ValidationError "Username already exists, try another."))
    else
      let* userId := uuidv4 in
      let* owner := ic_caller in
      let* created_at := Date_toISOString in
      let user :=
        User.mk userId owner (UserPayload.username payload)
                (UserPayload.role payload) 0%N created_at in
      Map.insert userStorage userId user;;
      ret (Ok user).

Definition getUsers : M (Result (list User.t)) :=
  let* all_users := Map.values userStorage in
  if (length all_users =? 0)%nat
  then ret (Err (NotFound "No users found."))
  else ret (Ok all_users).

Definition getUserByUsername (username : text) : M (Result User.t) :=
  let* all_users := Map.values userStorage in
  let user :=
    List.find (λ user, (User.username user =? username)%string) all_users in
  match user with
  | Some user => ret (Ok user)
  | None =>
      ret (Err (NotFound ("User with username " ++ username
                            ++ " not found.")))
  end.

Definition getUsersByRole (role : UserRole) : M (Result (list User.t)) :=
  let* all_users := Map.values userStorage in
  let matching :=
    List.filter (λ user, key_in (object_as_key role) (User.role user))
                all_users in
  if (length matching =? 0)%nat
  then ret (Err (NotFound "No users found with the specified role."))
  else ret (Ok matching).

Definition createCampaign (payload : CampaignPayload.t)
  : M (Result Campaign.t) :=
  if js_not_text (CampaignPayload.name payload)
     || js_not_text (CampaignPayload.description payload)
  then ret (Err (InvalidPayload
                   "Ensure 'name' and 'description' are provided."))
  else
    let* userOpt :=
      Map.get userStorage (CampaignPayload.created_by payload) in
    if None_in userOpt
    then ret (Err (NotFound ("User with ID "
                               ++ CampaignPayload.created_by payload
                               ++ " not found.")))
    else
      let* role := Some_field userOpt User.role "role" in
      let hasValidRole := tag_in Admin role || tag_in CampaignManager role in
      if negb hasValidRole
      then ret (Err (Unauthorized
                  "Only Admins and Campaign Managers can create campaigns."))
      else
        let* campaignId := uuidv4 in
        let* timestamp := Date_toISOString in
        let campaign :=
          Campaign.mk campaignId (CampaignPayload.name payload)
                      (CampaignPayload.description payload)
                      (CampaignPayload.created_by payload)
                      timestamp timestamp in
        Map.insert campaignStorage campaignId campaign;;
        notifyParticipants campaignId "New campaign created.";;
        ret (Ok campaign).

Definition updateCampaign (campaignId : text) (payload : CampaignPayload.t)
  : M (Result Campaign.t) :=
  let* existingCampaignOpt := Map.get campaignStorage campaignId in
  match existingCampaignOpt with
  | None =>
      ret (Err (NotFound ("Campaign with ID " ++ campaignId
                            ++ " not found.")))
  | Some existingCampaign =>
      if js_not_text (CampaignPayload.name payload)
         || js_not_text (CampaignPayload.description payload)
      then ret (Err (InvalidPayload
                       "Ensure 'name' and 'description' are provided."))
      else
        let* userOpt :=
          Map.get userStorage (CampaignPayload.created_by payload) in
        if None_in userOpt
        then ret (Err (NotFound ("User with ID "
                                   ++ CampaignPayload.created_by payload
                                   ++ " not found.")))
        else
          let* role := Some_field userOpt User.role "role" in
          let hasValidRole :=
            tag_in Admin role || tag_in CampaignManager role in
          if negb hasValidRole
          then ret (Err (Unauthorized
                  "Only Admins and Campaign Managers can update campaigns."))
          else
            let* updated_at := Date_toISOString in
            let updatedCampaign :=
              Campaign.mk (Campaign.id existingCampaign)
                          (CampaignPayload.name payload)
                          (CampaignPayload.description payload)
                          (Campaign.created_by existingCampaign)
                          (Campaign.created_at existingCampaign)
                          updated_at in
            Map.insert campaignStorage campaignId updatedCampaign;;
            notifyParticipants campaignId "Campaign updated.";;
            ret (Ok updatedCampaign)
  end.

Definition getCampaigns : M (Result (list Campaign.t)) :=
  let* all_campaigns := Map.values campaignStorage in
  if (length all_campaigns =? 0)%nat
  then ret (Err (NotFound "No campaigns found."))
  else ret (Ok all_campaigns).

Definition getCampaignById (campaignId : text) : M (Result Campaign.t) :=
  let* campaignOpt := Map.get campaignStorage campaignId in
  match campaignOpt with
  | None =>
      ret (Err (NotFound ("Campaign with ID " ++ campaignId
                            ++ " not found.")))
  | Some campaign => ret (Ok campaign)
  end.

End IndexTs.

(** ** Observations on a store *)

(** The users a caller's username resolves to: the first one found, as in
    [users.find((u) => u.username === userPayload.username)]. *)
Definition resolve_caller (username : text) (s : Stores) : option User.t :=
  List.find (λ u, (User.username u =? username)%string)
            (Map.values_of (users s)).

(** The notifications of a campaign, as [getNotificationsByCampaignId]
    selects them. *)
Definition notifications_of (campaignId : text) (s : Stores)
  : list Notification.t :=
  List.filter
    (λ notification,
       (Notification.campaign_id notification =? campaignId)%string)
    (Map.values_of (notifications s)).

(** The stored users that carry a given username. *)
Definition users_named (username : text) (s : Stores) : list User.t :=
  List.filter (λ u, (User.username u =? username)%string)
              (Map.values_of (users s)).

(** ** Identifiers in use

    Every key of every store was handed out by [uuidv4()]: it is a reading
    of the identifier tape before the current position. *)

Definition issued (w : World) (key : text) : Prop :=
  ∃ i, (i < uuid_pos w)%nat ∧ uuid_tape w i = key.

Definition all_keys (s : Stores) : gset text :=
  dom (campaigns s) ∪ dom (donations s) ∪ dom (expenses s)
  ∪ dom (outreaches s) ∪ dom (messages s) ∪ dom (notifications s)
  ∪ dom (users s).

Definition keys_issued (w : World) : Prop :=
  ∀ key, key ∈ all_keys (stores w) → issued w key.

(** [uuidv4()] never gives the same identifier twice. *)
Definition uuids_unique (w : World) : Prop :=
  ∀ i j, uuid_tape w i = uuid_tape w j → i = j.

(** ** Worlds used in the examples *)

Definition tape (readings : list text) : nat → text :=
  λ n, nth n readings "".

Definition no_records : Stores := mkStores ∅ ∅ ∅ ∅ ∅ ∅ ∅.

Definition world_of (s : Stores) : World :=
  mkWorld s
    (tape ["uuid-0"; "uuid-1"; "uuid-2"; "uuid-3"; "uuid-4"; "uuid-5"]) 0
    (tape ["2024-05-01T10:00:00.000Z"; "2024-05-01T10:00:00.001Z";
           "2024-05-01T10:00:00.002Z"; "2024-05-01T10:00:00.003Z";
           "2024-05-01T10:00:00.004Z"; "2024-05-01T10:00:00.005Z"]) 0
    "aaaaa-aa".

Definition alice : User.t :=
  User.mk "user-alice" "aaaaa-aa" "alice" CampaignManager 0%N
          "2024-04-30T09:00:00.000Z".
Definition bob : User.t :=
  User.mk "user-bob" "aaaaa-aa" "bob" Donor 0%N "2024-04-30T09:05:00.000Z".
Definition root : User.t :=
  User.mk "user-root" "aaaaa-aa" "root" Admin 0%N "2024-04-30T09:10:00.000Z".

Definition primary : Campaign.t :=
  Campaign.mk "camp-1" "Primary 2024" "Door to door" "user-alice"
              "2024-04-30T10:00:00.000Z" "2024-04-30T10:00:00.000Z".

(** Three users, one campaign, nothing else. *)
Definition staffed : Stores :=
  mkStores {[ "camp-1" := primary ]} ∅ ∅ ∅ ∅ ∅
           (<[ "user-alice" := alice ]>
              (<[ "user-bob" := bob ]> {[ "user-root" := root ]})).

(** Three users and no campaign. *)
Definition users_only : Stores :=
  mkStores ∅ ∅ ∅ ∅ ∅ ∅
           (<[ "user-alice" := alice ]>
              (<[ "user-bob" := bob ]> {[ "user-root" := root ]})).


(** ** Well-formed stores

    What the methods establish for the records they store, and keep. *)

(** Every record sits under its own identifier. *)
Definition keyed_by_id (s : Stores) : Prop :=
  (∀ k c, campaigns s !! k = Some c → Campaign.id c = k)
  ∧ (∀ k d, donations s !! k = Some d → Donation.id d = k)
  ∧ (∀ k e, expenses s !! k = Some e → Expense.id e = k)
  ∧ (∀ k o, outreaches s !! k = Some o → VoterOutreach.id o = k)
  ∧ (∀ k m, messages s !! k = Some m → SecureMessage.id m = k)
  ∧ (∀ k n, notifications s !! k = Some n → Notification.id n = k)
  ∧ (∀ k u, users s !! k = Some u → User.id u = k).

(** No two stored users carry the same username. *)
Definition usernames_unique (s : Stores) : Prop :=
  ∀ k1 k2 u1 u2,
    users s !! k1 = Some u1 → users s !! k2 = Some u2 →
    User.username u1 = User.username u2 → k1 = k2.

(** The fields the methods validate are valid in every stored record, and
    no user has points. *)
Definition fields_valid (s : Stores) : Prop :=
  (∀ k c, campaigns s !! k = Some c →
          Campaign.name c ≠ "" ∧ Campaign.description c ≠ "")
  ∧ (∀ k d, donations s !! k = Some d →
            Donation.donor_name d ≠ "" ∧ Donation.amount d ≠ 0%N)
  ∧ (∀ k e, expenses s !! k = Some e →
            Expense.description e ≠ "" ∧ Expense.amount e ≠ 0%N)
  ∧ (∀ k o, outreaches s !! k = Some o →
            VoterOutreach.activity o ≠ "" ∧ VoterOutreach.date o ≠ ""
            ∧ VoterOutreach.status o ≠ "")
  ∧ (∀ k m, messages s !! k = Some m →
            SecureMessage.sender m ≠ "" ∧ SecureMessage.content m ≠ "")
  ∧ (∀ k u, users s !! k = Some u → User.points u = 0%N).

(** The references the methods check resolve: the creator of a campaign and
    the sender of a message are keys of the user store, the campaign of a
    donation and of a message is a key of the campaign store. *)
Definition references_resolve (s : Stores) : Prop :=
  (∀ k c, campaigns s !! k = Some c →
          is_Some (users s !! Campaign.created_by c))
  ∧ (∀ k d, donations s !! k = Some d →
            is_Some (campaigns s !! Donation.campaign_id d))
  ∧ (∀ k m, messages s !! k = Some m →
            is_Some (campaigns s !! SecureMessage.campaign_id m)
            ∧ is_Some (users s !! SecureMessage.sender m)).

(** ** Sequences of calls *)

(** A call reaches the canister with the principal of its caller. *)
Record Call : Type := mkCall { principal : Principal; request : Request }.

Definition with_caller (p : Principal) (w : World) : World :=
  mkWorld (stores w) (uuid_tape w) (uuid_pos w) (clock_tape w) (clock_pos w) p.

(** The world a call leaves behind, whatever it replied. *)
Definition step (w : World) (c : Call) : World :=
  snd (Canister (request c) (with_caller (principal c) w)).

Definition calls (cs : list Call) (w : World) : World := fold_left step cs w.

(** The canister as deployed: the seven maps are empty. *)
Definition deployed (uuids clock : nat → text) : World :=
  mkWorld no_records uuids 0 clock 0 "".

(** Identifiers that never repeat: the decimal numerals behind a prefix. *)
Definition numbered_uuids : nat → text := λ n, "uuid-" ++ pretty n.

(** The campaign and the text an [update] method passes to
    [notifyParticipants] when it succeeds with value [v]; [createUser] and
    the queries notify nobody. *)
Definition announcement (req : Request) (v : Value) : option (text * text) :=
  match req, v with
  | CreateCampaign _, CampaignValue c =>
      Some (Campaign.id c, "New campaign created.")
  | UpdateCampaign campaignId _, _ => Some (campaignId, "Campaign updated.")
  | CreateDonation payload _, _ =>
      Some (DonationPayload.campaign_id payload, "New donation received.")
  | CreateExpense payload _, _ =>
      Some (ExpensePayload.campaign_id payload, "New expense recorded.")
  | CreateVoterOutreach payload _, _ =>
      Some (VoterOutreachPayload.campaign_id payload,
            "New voter outreach recorded.")
  | CreateMessage payload _, _ =>
      Some (MessagePayload.campaign_id payload, "New message sent.")
  | _, _ => None
  end.

(** ** A run of the canister *)

(** A clock that moves at every reading. *)
Definition ticking_clock : nat → text :=
  λ n, "2024-05-01T10:00:00." ++ pretty n ++ "Z".

(** A day of calls on the freshly deployed canister: a campaign manager
    registers and opens a campaign, a donor registers and gives. *)
Definition campaign_day : list Call :=
  [ mkCall "p-alice" (CreateUser (UserPayload.mk "alice" CampaignManager));
    mkCall "p-alice"
      (CreateCampaign
         (CampaignPayload.mk "Primary 2024" "Door to door" "uuid-0"));
    mkCall "p-bob" (CreateUser (UserPayload.mk "bob" Donor));
    mkCall "p-bob"
      (CreateDonation (DonationPayload.mk "uuid-1" "Bob" 50)
                      (UserPayload.mk "bob" Donor)) ].

Definition after_campaign_day : World :=
  calls campaign_day (deployed numbered_uuids ticking_clock).

(** ** What the list queries answer *)

(** What a by-campaign query answers, for the store [m] it reads: [Ok] with
    the non-empty list of exactly the stored records of the campaign, or
    [NotFound] when the store holds none. *)
Definition lists_campaign {V : Type} (m : gmap text V) (campaign_of : V → text)
  (campaignId : text) (r : Completion (Result (list V)) * World) (w : World)
  : Prop :=
  snd r = w
  ∧ match fst r with
    | Returns (Ok found) =>
        found ≠ []
        ∧ ∀ x, In x found
               ↔ (∃ k, m !! k = Some x) ∧ campaign_of x = campaignId
    | Returns (Err e) =>
        error_tag e = NotFoundTag
        ∧ ∀ k x, m !! k = Some x → campaign_of x ≠ campaignId
    | Throws _ => False
    end.

(** What [getUsers] and [getCampaigns] answer, for the store [m] they read:
    [NotFound] when it is empty, otherwise every stored record. *)
Definition lists_all {V : Type} (m : gmap text V)
  (r : Completion (Result (list V)) * World) (w : World) : Prop :=
  snd r = w
  ∧ match fst r with
    | Returns (Ok found) =>
        m ≠ ∅ ∧ length found = size m
        ∧ ∀ x, In x found ↔ ∃ k, m !! k = Some x
    | Returns (Err e) => error_tag e = NotFoundTag ∧ m = ∅
    | Throws _ => False
    end.

(** ** The time of a call

    On the Internet Computer the time a call observes is fixed for the whole
    call: every reading of the clock taken while the call runs is the first
    one. *)
Definition call_time_fixed (w : World) : Prop :=
  ∀ n, clock_tape w (clock_pos w + n) = clock_tape w (clock_pos w).

(** A world whose clock stands at its current reading. *)
Definition frozen (w : World) : World :=
  mkWorld (stores w) (uuid_tape w) (uuid_pos w)
          (λ _, clock_tape w (clock_pos w)) (clock_pos w) (caller w).

(** How many identifiers, and how many readings of the clock, an [update]
    method takes for its own record before it calls [notifyParticipants]. *)
Definition ids_before_notice (req : Request) : nat :=
  match req with
  | UpdateCampaign _ _ => 0
  | _ => 1
  end.

Definition readings_before_notice (req : Request) : nat :=
  match req with
  | CreateCampaign _ => 2
  | _ => 1
  end.

(** ** Running a method symbolically *)

Ltac run :=
  cbv beta iota delta
    [Canister reply map_result
     createUser getUsers getUserByUsername getUsersByRole
     createCampaign updateCampaign getCampaigns getCampaignById
     createDonation getDonationById getDonationsByCampaignId
     createExpense getExpensesByCampaignId
     createVoterOutreach getVoterOutreachByCampaignId
     createMessage getMessagesBycampaignId getNotificationsByCampaignId
     notifyParticipants Some_field
     bind ret throw uuidv4 Date_toISOString ic_caller
     Map.get Map.values Map.insert set_stores
     js_not_object js_object_is_null] in *;
  cbn [contents replace_contents stores uuid_tape uuid_pos clock_tape
       clock_pos caller orb negb fst snd
       campaignStorage donationStorage expenseStorage outreachStorage
       messageStorage notificationStorage userStorage
       campaigns donations expenses outreaches messages notifications users]
    in *.

(** Case analysis on every test a method makes on its way to a reply. *)
Ltac branches := repeat (case_match; simplify_eq/=; try done).

Section Totality.

(** X1.  A method declared with [query] answers with a [Result], never
    throws, and leaves the whole world, stores and tapes, as it was. *)
Lemma query_returns (req : Request) (w : World) :
  is_update req = false →
  ∃ r, Canister req w = (Returns r, w).
Proof.
  destruct req; intros Hq; try discriminate Hq; run; branches; eauto.
Qed.

(** [createCampaign] throws exactly when the payload names a creator that
    the user store does not hold (and name and description are there). *)
Lemma createCampaign_throws_iff (payload : CampaignPayload.t) (w : World) :
  (∃ e, fst (createCampaign payload w) = Throws e)
  ↔ (CampaignPayload.name payload ≠ ""
     ∧ CampaignPayload.description payload ≠ ""
     ∧ users (stores w) !! CampaignPayload.created_by payload = None).
Proof.
  destruct payload as [n d by_]; run; cbn [CampaignPayload.name
    CampaignPayload.description CampaignPayload.created_by].
  destruct n, d; cbn [js_not_text orb];
    destruct (users (stores w) !! by_) as [u|] eqn:Hu; cbn.
  all: try (split; [intros [e He]; discriminate He
                   | intros (? & ? & ?); congruence]).
  - split; [intros [e He] | intros (? & ? & ?); congruence].
    destruct (negb _) in He; discriminate He.
  - split; [done | eauto].
Qed.

(** Every method but [createCampaign] returns a [Result] in every world. *)
Lemma other_methods_return (req : Request) (w : World) :
  (∀ payload, req ≠ CreateCampaign payload) →
  ∃ r w', Canister req w = (Returns r, w').
Proof.
  destruct req; intros Hne; try (by destruct (Hne payload));
    run; branches; eauto.
Qed.

End Totality.

(** ** Facts about [values()] of a map *)

Section Values.

Context {V : Type}.
Implicit Types (m : gmap text V) (f : V → bool).

Lemma filter_perm f (l l' : list V) :
  l ≡ₚ l' → List.filter f l ≡ₚ List.filter f l'.
Proof.
  induction 1 as [|x l l' _ IH|x y l|l l' l'' _ IH1 _ IH2]; cbn.
  - done.
  - destruct (f x); by rewrite IH.
  - destruct (f x), (f y); try done. apply perm_swap.
  - by rewrite IH1.
Qed.

Lemma filter_length_perm f (l l' : list V) :
  l ≡ₚ l' → length (List.filter f l) = length (List.filter f l').
Proof. intros Hp. apply Permutation_length. by apply filter_perm. Qed.

Lemma find_none_filter f (l : list V) :
  List.find f l = None ↔ List.filter f l = [].
Proof.
  induction l as [|x l IH]; cbn; [done|].
  destruct (f x); [split; discriminate | exact IH].
Qed.

(** Storing under a key the map does not hold adds one value. *)
Lemma values_of_insert_fresh m (k : text) (v : V) :
  m !! k = None → Map.values_of (<[k := v]> m) ≡ₚ v :: Map.values_of m.
Proof.
  intros Hk. unfold Map.values_of.
  by rewrite (map_to_list_insert m k v Hk).
Qed.

(** Storing under any key leaves the values held under the other keys. *)
Lemma values_of_insert m (k : text) (v : V) :
  Map.values_of (<[k := v]> m) ≡ₚ v :: Map.values_of (delete k m).
Proof.
  rewrite <- (insert_delete_eq m k v).
  apply values_of_insert_fresh, lookup_delete_eq.
Qed.

Lemma In_values_of m (v : V) :
  In v (Map.values_of m) ↔ ∃ k, m !! k = Some v.
Proof.
  unfold Map.values_of. rewrite <- list_elem_of_In, list_elem_of_fmap.
  split.
  - intros [[k v'] [-> Hin]]. exists k. by apply elem_of_map_to_list.
  - intros [k Hk]. exists (k, v). split; [done|].
    by apply elem_of_map_to_list.
Qed.

Lemma In_values_of_delete m (k : text) (v : V) :
  In v (Map.values_of (delete k m)) → In v (Map.values_of m).
Proof.
  rewrite !In_values_of. intros [k' Hk']. exists k'.
  apply lookup_delete_Some in Hk'. tauto.
Qed.

Lemma filter_none f (l : list V) :
  (∀ v, In v l → f v = false) → List.filter f l = [].
Proof.
  induction l as [|x l IH]; cbn; intros Hl; [done|].
  rewrite (Hl x) by auto. apply IH. auto.
Qed.

End Values.

Lemma js_not_text_false (s : text) : js_not_text s = false ↔ s ≠ "".
Proof. destruct s; cbn; split; intros; congruence. Qed.

Lemma None_in_false {A : Type} (opt : option A) :
  None_in opt = false ↔ is_Some opt.
Proof. destruct opt; cbn; split; intros H; try done; by destruct H. Qed.

Lemma tag_in_true (tag r : UserRole) : tag_in tag r = true ↔ r = tag.
Proof. unfold tag_in. by rewrite bool_decide_eq_true. Qed.

Lemma tag_in_same (tag : UserRole) : tag_in tag tag = true.
Proof. by apply tag_in_true. Qed.

Lemma tag_in_key_in (tag r : UserRole) : tag_in tag r = key_in (tag_name tag) r.
Proof. by destruct tag, r. Qed.

(** ** Totality of the methods *)

(** C1.  The specification has it that every method returns a tagged result in every
    world, [createCampaign] with an unknown creator included.  On the
    three-user store, [createCampaign] for the unknown creator ["ghost"]
    throws a [TypeError] instead, with nothing written; on the same input
    [updateCampaign] and the [createCampaign] of the abridged revision return
    [NotFound]. *)
Theorem createCampaign_unknown_creator_throws :
  let payload := CampaignPayload.mk "Primary 2024" "Door to door" "ghost" in
  let w := world_of staffed in
  users (stores w) !! "ghost" = None
  ∧ createCampaign payload w
    = (Throws (TypeError "cannot read property 'role' of undefined"), w)
  ∧ Canister (CreateCampaign payload) w
    = (Throws (TypeError "cannot read property 'role' of undefined"), w)
  ∧ updateCampaign "camp-1" payload w
    = (Returns (Err (NotFound "User with ID ghost not found")), w)
  ∧ IndexTs.createCampaign payload w
    = (Returns (Err (NotFound "User with ID ghost not found.")), w).
Proof. cbv zeta. repeat split; by vm_compute. Qed.

(** ** Failure leaves the stores alone *)

(** C4.  When an [update] method returns [Err], whatever the tag, the seven
    stores, the notification store among them, are those of before the
    call. *)
Theorem failed_update_leaves_stores
  (req : Request) (w w' : World) (e : Error) :
  is_update req = true →
  Canister req w = (Returns (Err e), w') →
  stores w' = stores w.
Proof.
  destruct req; intros Hu; try discriminate Hu; clear Hu;
    run; intros Hcall; branches.
Qed.

Lemma failed_update_leaves_stores_witness :
  ∃ e, Canister (UpdateCampaign "camp-9"
                   (CampaignPayload.mk "Primary 2024" "Door to door"
                                       "user-alice"))
                (world_of staffed)
       = (Returns (Err e), world_of staffed)
       ∧ error_tag e = NotFoundTag
       ∧ stores (world_of staffed) = stores (world_of staffed).
Proof.
  eexists. split; [by vm_compute|]. split; [reflexivity|].
  apply (failed_update_leaves_stores
           (UpdateCampaign "camp-9"
              (CampaignPayload.mk "Primary 2024" "Door to door" "user-alice"))
           (world_of staffed) (world_of staffed)
           (NotFound "Campaign with ID camp-9 not found")).
  - reflexivity.
  - by vm_compute.
Defined.

(** ** The campaign reference of expenses and outreach *)

(** [createExpense] goes on to store whatever [campaignStorage.get] answered:
    an [Opt] object is truthy, so the test [!campaign] never sends it to
    [NotFound]. *)
Lemma createExpense_ignores_campaign
  (payload : ExpensePayload.t) (userPayload : UserPayload.t) (w : World)
  (admin : User.t) :
  resolve_caller (UserPayload.username userPayload) (stores w) = Some admin →
  User.role admin = Admin →
  ExpensePayload.description payload ≠ "" →
  ExpensePayload.amount payload ≠ 0%N →
  ∃ expense w',
    createExpense payload userPayload w = (Returns (Ok expense), w')
    ∧ expenses (stores w') !! Expense.id expense = Some expense
    ∧ Expense.campaign_id expense = ExpensePayload.campaign_id payload.
Proof.
  intros Hres Hrole Hdesc Hamt. unfold resolve_caller in Hres. run.
  rewrite Hres, Hrole. cbn.
  apply js_not_text_false in Hdesc. rewrite Hdesc. unfold le_0n.
  destruct (N.leb_spec (ExpensePayload.amount payload) 0) as [Hle|_];
    [destruct Hamt; by apply N.le_0_r|].
  cbn. eexists _, _. split; [reflexivity|]. cbn.
  split; [apply lookup_insert_eq | reflexivity].
Qed.

(** So does [createVoterOutreach], for any caller the user store knows. *)
Lemma createVoterOutreach_ignores_campaign
  (payload : VoterOutreachPayload.t) (userPayload : UserPayload.t) (w : World)
  (user : User.t) :
  resolve_caller (UserPayload.username userPayload) (stores w) = Some user →
  VoterOutreachPayload.activity payload ≠ "" →
  VoterOutreachPayload.date payload ≠ "" →
  VoterOutreachPayload.status payload ≠ "" →
  ∃ outreach w',
    createVoterOutreach payload userPayload w = (Returns (Ok outreach), w')
    ∧ outreaches (stores w') !! VoterOutreach.id outreach = Some outreach
    ∧ VoterOutreach.campaign_id outreach
      = VoterOutreachPayload.campaign_id payload.
Proof.
  intros Hres Hact Hdate Hstatus. unfold resolve_caller in Hres.
  apply js_not_text_false in Hact, Hdate, Hstatus.
  run. rewrite Hres; cbn [js_not_found]. rewrite Hact, Hdate, Hstatus; run.
  eexists _, _. split; [reflexivity|]. run.
  split; [apply lookup_insert_eq | reflexivity].
Qed.

(** C2.  The specification has it that an expense or an outreach naming a campaign that
    does not exist is answered with [NotFound] and nothing is stored.  On the
    store with three users and no campaign, [createExpense] called by the
    admin ["root"] for campaign ["ghost"] returns [Ok], stores the expense
    and writes a notification; [createVoterOutreach] does the same.
    [createDonation] on that store answers [NotFound]. *)
Theorem createExpense_createVoterOutreach_store_for_missing_campaign :
  let w := world_of users_only in
  let expense := Expense.mk "uuid-0" "ghost" "Flyers" 25%N
               "2024-05-01T10:00:00.000Z" in
  let outreach :=
    VoterOutreach.mk "uuid-0" "ghost" "Canvassing" "2024-05-04" "planned"
                     "2024-05-01T10:00:00.000Z" in
  campaigns (stores w) !! "ghost" = None
  ∧ (∃ w', createExpense (ExpensePayload.mk "ghost" "Flyers" 25%N)
                         (UserPayload.mk "root" Admin) w
           = (Returns (Ok expense), w')
           ∧ expenses (stores w') = {[ "uuid-0" := expense ]}
           ∧ notifications (stores w')
             = {[ "uuid-1" := Notification.mk "uuid-1" "ghost"
                                "New expense recorded."
                                "2024-05-01T10:00:00.001Z" ]})
  ∧ (∃ w', createVoterOutreach
             (VoterOutreachPayload.mk "ghost" "Canvassing" "2024-05-04"
                                      "planned")
             (UserPayload.mk "bob" Donor) w
           = (Returns (Ok outreach), w')
           ∧ outreaches (stores w') = {[ "uuid-0" := outreach ]}
           ∧ notifications (stores w')
             = {[ "uuid-1" := Notification.mk "uuid-1" "ghost"
                                "New voter outreach recorded."
                                "2024-05-01T10:00:00.001Z" ]})
  ∧ createDonation (DonationPayload.mk "ghost" "Bob" 50%N)
                   (UserPayload.mk "bob" Donor) w
    = (Returns (Err (NotFound "Campaign not found")), w).
Proof.
  cbv zeta. split; [by vm_compute|]. split; [|split].
  - eexists. split; [by vm_compute|]. split; by vm_compute.
  - eexists. split; [by vm_compute|]. split; by vm_compute.
  - by vm_compute.
Qed.

(** ** Filtering users by role *)

(** What the callback of [getUsersByRole] selects: for the query [Admin],
    the users that are not campaign managers; for any other query, the users
    that are not admins. *)
Lemma role_filter_selects (role : UserRole) (user : User.t) :
  role_filter role user = true
  ↔ match role with
    | Admin => User.role user ≠ CampaignManager
    | CampaignManager | Donor => User.role user ≠ Admin
    end.
Proof.
  unfold role_filter, role_prop.
  destruct role, (User.role user); cbv; split; intros; congruence.
Qed.

(** The last branch of the callback, [return false], is never taken. *)
Lemma role_filter_tests_exhaust (role : UserRole) :
  js_strict_ne_null (role_prop Admin role) = true
  ∨ js_strict_ne_null (role_prop CampaignManager role) = true.
Proof. destruct role; cbn; auto. Qed.

(** The filter of the abridged revision selects nobody. *)
Lemma IndexTs_getUsersByRole_NotFound (role : UserRole) (w : World) :
  IndexTs.getUsersByRole role w
  = (Returns (Err (NotFound "No users found with the specified role.")), w).
Proof.
  unfold IndexTs.getUsersByRole; run.
  rewrite filter_none; [done|].
  intros u _. by destruct (User.role u).
Qed.

(** C3.  The specification has it that an [Admin] or [CampaignManager] query returns
    exactly the users of that role and that a [Donor] query is [NotFound] in
    every store.  On the store that holds the donor ["bob"] alone, each of
    the three queries returns [Ok] with ["bob"] in the list. *)
Theorem getUsersByRole_returns_donor :
  let w := world_of (mkStores ∅ ∅ ∅ ∅ ∅ ∅ {[ "user-bob" := bob ]}) in
  User.role bob = Donor
  ∧ getUsersByRole Donor w = (Returns (Ok [bob]), w)
  ∧ getUsersByRole Admin w = (Returns (Ok [bob]), w)
  ∧ getUsersByRole CampaignManager w = (Returns (Ok [bob]), w).
Proof. cbv zeta. repeat split; by vm_compute. Qed.

(** ** An unknown creator *)

(** C5 does not hold as the specification states it: on the staffed store, [updateCampaign] of the
    existing campaign ["camp-1"] with the unknown creator ["ghost"] does not
    answer [Unauthorized]. *)
Lemma updateCampaign_unknown_creator_not_Unauthorized :
  let payload := CampaignPayload.mk "Primary 2024" "Door to door" "ghost" in
  let w := world_of staffed in
  campaigns (stores w) !! "camp-1" = Some primary
  ∧ CampaignPayload.name payload ≠ ""
  ∧ CampaignPayload.description payload ≠ ""
  ∧ users (stores w) !! CampaignPayload.created_by payload = None
  ∧ ¬ (∃ msg w',
         updateCampaign "camp-1" payload w
         = (Returns (Err (Unauthorized msg)), w')).
Proof.
  cbv zeta. split; [by vm_compute|]. split; [done|]. split; [done|].
  split; [by vm_compute|].
  intros (msg & w' & Hcall). vm_compute in Hcall. discriminate Hcall.
Qed.

(** C5, amended.  [updateCampaign] on an existing campaign, with name and
    description given and a creator the user store does not hold, answers
    [NotFound] and changes nothing. *)
Theorem updateCampaign_unknown_creator_NotFound
  (campaignId : text) (payload : CampaignPayload.t) (w : World)
  (existing : Campaign.t) :
  campaigns (stores w) !! campaignId = Some existing →
  CampaignPayload.name payload ≠ "" →
  CampaignPayload.description payload ≠ "" →
  users (stores w) !! CampaignPayload.created_by payload = None →
  ∃ msg,
    updateCampaign campaignId payload w = (Returns (Err (NotFound msg)), w).
Proof.
  intros Hc Hn Hd Hu. run. rewrite Hc.
  apply js_not_text_false in Hn, Hd. rewrite Hn, Hd; run.
  rewrite Hu; run. eauto.
Qed.

Lemma updateCampaign_unknown_creator_NotFound_witness :
  ∃ msg,
    updateCampaign "camp-1"
      (CampaignPayload.mk "Primary 2024" "Door to door" "ghost")
      (world_of staffed)
    = (Returns (Err (NotFound msg)), world_of staffed).
Proof.
  apply (updateCampaign_unknown_creator_NotFound "camp-1"
           (CampaignPayload.mk "Primary 2024" "Door to door" "ghost")
           (world_of staffed) primary).
  - by vm_compute.
  - discriminate.
  - discriminate.
  - by vm_compute.
Defined.

(** ** Creating a campaign *)

(** X27.  What [createCampaign] does for an authorised creator: the record
    goes under the generated identifier, [updated_at] is the first reading
    of the clock and [created_at] the second, and [getCampaignById] finds
    it. *)
Lemma createCampaign_authorised
  (payload : CampaignPayload.t) (w : World) (creator : User.t) :
  CampaignPayload.name payload ≠ "" →
  CampaignPayload.description payload ≠ "" →
  users (stores w) !! CampaignPayload.created_by payload = Some creator →
  User.role creator = Admin ∨ User.role creator = CampaignManager →
  ∃ campaign w',
    createCampaign payload w = (Returns (Ok campaign), w')
    ∧ Campaign.id campaign = uuid_tape w (uuid_pos w)
    ∧ Campaign.updated_at campaign = clock_tape w (clock_pos w)
    ∧ Campaign.created_at campaign = clock_tape w (S (clock_pos w))
    ∧ getCampaignById (Campaign.id campaign) w' = (Returns (Ok campaign), w').
Proof.
  intros Hn Hd Hu Hrole. run.
  apply js_not_text_false in Hn, Hd. rewrite Hn, Hd; run.
  rewrite Hu; run.
  assert (tag_in Admin (User.role creator)
          || tag_in CampaignManager (User.role creator) = true) as Hvalid.
  { destruct Hrole as [-> | ->]; done. }
  cbn [orb] in Hvalid. rewrite Hvalid; run.
  eexists _, _. split; [reflexivity|]. run.
  repeat split. by rewrite lookup_insert_eq.
Qed.

(** The two fields agree when the clock stands still between the two
    readings. *)
Lemma createCampaign_still_clock
  (payload : CampaignPayload.t) (w w' : World) (campaign : Campaign.t) :
  createCampaign payload w = (Returns (Ok campaign), w') →
  clock_tape w (S (clock_pos w)) = clock_tape w (clock_pos w) →
  Campaign.created_at campaign = Campaign.updated_at campaign.
Proof. run. intros Hcall Hstill; branches. Qed.

(** The abridged revision uses one reading for both fields. *)
Lemma IndexTs_createCampaign_one_reading
  (payload : CampaignPayload.t) (w w' : World) (campaign : Campaign.t) :
  IndexTs.createCampaign payload w = (Returns (Ok campaign), w') →
  Campaign.created_at campaign = Campaign.updated_at campaign.
Proof.
  unfold IndexTs.createCampaign, IndexTs.notifyParticipants; run.
  intros Hcall; branches.
Qed.



(** ** Donations and their notification *)

(** C7.  In a world where the campaign exists, the caller's username
    resolves to a donor and [donor_name] is given: a donation of [0] is
    answered with [InvalidPayload]; a donation of [1] is answered with [Ok],
    and the campaign then has exactly one notification more.  Identifiers
    are unique: the one generated for the notification is not yet a key of
    the notification store. *)
Theorem createDonation_amount_boundary
  (campaignId donor_name : text) (userPayload : UserPayload.t) (w : World)
  (campaign : Campaign.t) (donor : User.t) :
  campaigns (stores w) !! campaignId = Some campaign →
  resolve_caller (UserPayload.username userPayload) (stores w) = Some donor →
  User.role donor = Donor →
  donor_name ≠ "" →
  notifications (stores w) !! uuid_tape w (S (uuid_pos w)) = None →
  (∃ msg,
     createDonation (DonationPayload.mk campaignId donor_name 0) userPayload w
     = (Returns (Err (InvalidPayload msg)), w))
  ∧ (∃ donation w',
       createDonation (DonationPayload.mk campaignId donor_name 1)
                      userPayload w
       = (Returns (Ok donation), w')
       ∧ length (notifications_of campaignId (stores w'))
         = S (length (notifications_of campaignId (stores w)))).
Proof.
  intros Hc Hres Hrole Hname Hfresh. unfold resolve_caller in Hres.
  apply js_not_text_false in Hname. split.
  - run. rewrite Hres, Hrole; run.
    cbn [DonationPayload.donor_name DonationPayload.amount].
    rewrite Hname. cbn. eauto.
  - run. rewrite Hres, Hrole; run.
    cbn [DonationPayload.donor_name DonationPayload.amount
         DonationPayload.campaign_id].
    rewrite Hname, tag_in_same. cbn [le_0n N.leb N.compare orb negb]. run.
    rewrite Hc; run.
    eexists _, _. split; [reflexivity|]. unfold notifications_of. run.
    rewrite (filter_length_perm _ _ _
               (values_of_insert_fresh _ _ _ Hfresh)).
    cbn [List.filter Notification.campaign_id Donation.campaign_id].
    by rewrite String.eqb_refl.
Qed.

Lemma createDonation_amount_boundary_witness :
  (∃ msg,
     createDonation (DonationPayload.mk "camp-1" "Bob" 0)
                    (UserPayload.mk "bob" Donor) (world_of staffed)
     = (Returns (Err (InvalidPayload msg)), world_of staffed))
  ∧ (∃ donation w',
       createDonation (DonationPayload.mk "camp-1" "Bob" 1)
                      (UserPayload.mk "bob" Donor) (world_of staffed)
       = (Returns (Ok donation), w')
       ∧ length (notifications_of "camp-1" (stores w'))
         = S (length (notifications_of "camp-1" (stores (world_of staffed))))).
Proof.
  apply (createDonation_amount_boundary "camp-1" "Bob"
           (UserPayload.mk "bob" Donor) (world_of staffed) primary bob).
  - by vm_compute.
  - by vm_compute.
  - reflexivity.
  - discriminate.
  - by vm_compute.
Defined.

(** ** Creating users *)

(** A username some stored user carries is refused, with nothing written. *)
Lemma createUser_taken (payload : UserPayload.t) (w : World) :
  users_named (UserPayload.username payload) (stores w) ≠ [] →
  ∃ msg, createUser payload w = (Returns (Err (ValidationError msg)), w).
Proof.
  unfold users_named. intros Hsome. run.
  destruct (List.find _ _) eqn:Hfound; run; [eauto|].
  by apply find_none_filter in Hfound.
Qed.

(** C8.  [createUser] tests the role, which is always there, and the
    uniqueness of the username, nothing else: when no stored user carries
    the payload's username, the empty one included, it returns [Ok] and
    stores the user with no points; a later [createUser] with that username
    is answered with [ValidationError], and the store holds that one user
    under the username. *)
Theorem createUser_unique_username (payload : UserPayload.t) (w : World) :
  users_named (UserPayload.username payload) (stores w) = [] →
  ∃ user w1,
    createUser payload w = (Returns (Ok user), w1)
    ∧ User.points user = 0%N
    ∧ User.username user = UserPayload.username payload
    ∧ User.role user = UserPayload.role payload
    ∧ users (stores w1) !! User.id user = Some user
    ∧ users_named (UserPayload.username payload) (stores w1) = [user]
    ∧ ∀ again : UserPayload.t,
        UserPayload.username again = UserPayload.username payload →
        ∃ msg,
          createUser again w1 = (Returns (Err (ValidationError msg)), w1).
Proof.
  unfold users_named. intros Hnone.
  pose proof (proj2 (find_none_filter _ _) Hnone) as Hfind.
  eexists _, _. split.
  { run. rewrite Hfind; run. reflexivity. }
  cbn [stores users User.points User.username User.role User.id].
  set (user := User.mk (uuid_tape w (uuid_pos w)) (caller w)
                       (UserPayload.username payload)
                       (UserPayload.role payload) 0
                       (clock_tape w (clock_pos w))).
  assert (List.filter
            (λ u, (User.username u =? UserPayload.username payload)%string)
            (Map.values_of (<[uuid_tape w (uuid_pos w) := user]>
                              (users (stores w))))
          = [user]) as Hone.
  { apply Permutation_singleton_r.
    rewrite (filter_perm _ _ _ (values_of_insert _ _ _)).
    cbn [List.filter User.username user]. rewrite String.eqb_refl.
    rewrite filter_none; [done|].
    intros v Hv. apply In_values_of_delete in Hv.
    destruct (_ =? _)%string eqn:Heq; [|done].
    assert (In v []) as []. rewrite <- Hnone. apply filter_In. auto. }
  do 4 (split; [reflexivity || apply lookup_insert_eq|]).
  split; [exact Hone|].
  intros again Hsame. apply createUser_taken.
  unfold users_named. rewrite Hsame. cbn [stores users].
  by rewrite Hone.
Qed.

Lemma createUser_unique_username_witness :
  ∃ user w1,
    createUser (UserPayload.mk "" Donor) (world_of staffed)
    = (Returns (Ok user), w1)
    ∧ User.points user = 0%N
    ∧ User.username user = ""
    ∧ User.role user = Donor
    ∧ users (stores w1) !! User.id user = Some user
    ∧ users_named "" (stores w1) = [user]
    ∧ ∀ again : UserPayload.t,
        UserPayload.username again = "" →
        ∃ msg,
          createUser again w1 = (Returns (Err (ValidationError msg)), w1).
Proof.
  apply (createUser_unique_username (UserPayload.mk "" Donor)
           (world_of staffed)).
  by vm_compute.
Defined.

(** The abridged revision answers [InvalidPayload] to an empty username. *)
Lemma IndexTs_createUser_empty_username (role : UserRole) (w : World) :
  ∃ msg,
    IndexTs.createUser (UserPayload.mk "" role) w
    = (Returns (Err (InvalidPayload msg)), w).
Proof. unfold IndexTs.createUser; run. cbn. eauto. Qed.

(** ** Updating a campaign *)

(** C9.  After a successful [updateCampaign], the record under the given key
    is the returned one: identifier and [created_at] are those of the record
    that was there, name, description and [created_by] are the payload's,
    [updated_at] is the reading of the clock; every other key of the
    campaign store holds what it held. *)
Theorem updateCampaign_replaces_fields
  (campaignId : text) (payload : CampaignPayload.t) (w w' : World)
  (updated : Campaign.t) :
  updateCampaign campaignId payload w = (Returns (Ok updated), w') →
  ∃ existing,
    campaigns (stores w) !! campaignId = Some existing
    ∧ campaigns (stores w') !! campaignId = Some updated
    ∧ Campaign.id updated = Campaign.id existing
    ∧ Campaign.created_at updated = Campaign.created_at existing
    ∧ Campaign.name updated = CampaignPayload.name payload
    ∧ Campaign.description updated = CampaignPayload.description payload
    ∧ Campaign.created_by updated = CampaignPayload.created_by payload
    ∧ Campaign.updated_at updated = clock_tape w (clock_pos w)
    ∧ ∀ other : text,
        other ≠ campaignId →
        campaigns (stores w') !! other = campaigns (stores w) !! other.
Proof.
  run. intros Hcall.
  destruct (campaigns (stores w) !! campaignId) as [existing|] eqn:Hc;
    [|discriminate Hcall].
  exists existing. branches.
  split; [reflexivity|]. split; [apply lookup_insert_eq|].
  do 6 (split; [reflexivity|]).
  intros other Hother. by apply lookup_insert_ne.
Qed.

Lemma updateCampaign_replaces_fields_witness :
  let payload := CampaignPayload.mk "General 2024" "Phone bank" "user-root" in
  let updated :=
    Campaign.mk "camp-1" "General 2024" "Phone bank" "user-root"
                "2024-04-30T10:00:00.000Z" "2024-05-01T10:00:00.000Z" in
  let w := world_of staffed in
  let w' := snd (updateCampaign "camp-1" payload w) in
  ∃ existing,
    campaigns (stores w) !! "camp-1" = Some existing
    ∧ campaigns (stores w') !! "camp-1" = Some updated
    ∧ Campaign.id updated = Campaign.id existing
    ∧ Campaign.created_at updated = Campaign.created_at existing
    ∧ Campaign.name updated = CampaignPayload.name payload
    ∧ Campaign.description updated = CampaignPayload.description payload
    ∧ Campaign.created_by updated = CampaignPayload.created_by payload
    ∧ Campaign.updated_at updated = clock_tape w (clock_pos w)
    ∧ ∀ other : text,
        other ≠ "camp-1" →
        campaigns (stores w') !! other = campaigns (stores w) !! other.
Proof.
  cbv zeta.
  apply (updateCampaign_replaces_fields "camp-1"
           (CampaignPayload.mk "General 2024" "Phone bank" "user-root")
           (world_of staffed)).
  by vm_compute.
Defined.

(** The abridged revision keeps the stored [created_by]. *)
Lemma IndexTs_updateCampaign_keeps_creator
  (campaignId : text) (payload : CampaignPayload.t) (w w' : World)
  (updated existing : Campaign.t) :
  campaigns (stores w) !! campaignId = Some existing →
  IndexTs.updateCampaign campaignId payload w = (Returns (Ok updated), w') →
  Campaign.created_by updated = Campaign.created_by existing.
Proof.
  unfold IndexTs.updateCampaign, IndexTs.notifyParticipants; run.
  intros Hc Hcall. rewrite Hc in Hcall. branches.
Qed.

(** ** The sender of a message *)

(** A stored user is found by its username, or another user of that name
    is. *)
Lemma resolve_caller_stored (s : Stores) (key : text) (user : User.t) :
  users s !! key = Some user →
  is_Some (resolve_caller (User.username user) s).
Proof.
  intros Hstored. unfold resolve_caller.
  destruct (List.find _ _) as [found|] eqn:Hfind; [by eexists|].
  pose proof (find_none _ _ Hfind user) as Hno. cbn in Hno.
  rewrite String.eqb_refl in Hno. discriminate Hno.
  apply In_values_of. eauto.
Qed.

(** C10.  [createMessage] does not compare the sender with the caller: with
    the campaign stored and two distinct stored users [a] and [b], called
    under the username of [a] with some content and with [b]'s identifier as
    sender, it returns [Ok] and stores a message whose sender is [b]'s
    identifier.  The identifier, being a UUID, is not the empty string. *)
Theorem createMessage_sender_unchecked
  (payload : MessagePayload.t) (userPayload : UserPayload.t) (w : World)
  (campaign : Campaign.t) (a b : User.t) :
  campaigns (stores w) !! MessagePayload.campaign_id payload = Some campaign →
  users (stores w) !! User.id a = Some a →
  users (stores w) !! User.id b = Some b →
  a ≠ b →
  User.id b ≠ "" →
  UserPayload.username userPayload = User.username a →
  MessagePayload.sender payload = User.id b →
  MessagePayload.content payload ≠ "" →
  ∃ message w',
    createMessage payload userPayload w = (Returns (Ok message), w')
    ∧ SecureMessage.sender message = User.id b
    ∧ messages (stores w') !! SecureMessage.id message = Some message.
Proof.
  intros Hc Ha Hb _ Hid Hcaller Hsender Hcontent.
  destruct (resolve_caller_stored _ _ _ Ha) as [found Hres].
  unfold resolve_caller in Hres. rewrite <- Hcaller in Hres.
  rewrite <- Hsender in Hid, Hb |- *.
  apply js_not_text_false in Hid, Hcontent.
  run. rewrite Hres; cbn [js_not_found]. rewrite Hid, Hcontent; run.
  rewrite Hb; cbn [None_in]; run. rewrite Hc; cbn [None_in]; run.
  eexists _, _. split; [reflexivity|]. run.
  split; [reflexivity | apply lookup_insert_eq].
Qed.

Lemma createMessage_sender_unchecked_witness :
  ∃ message w',
    createMessage (MessagePayload.mk "camp-1" "user-root" "Budget approved")
                  (UserPayload.mk "bob" Donor) (world_of staffed)
    = (Returns (Ok message), w')
    ∧ SecureMessage.sender message = "user-root"
    ∧ messages (stores w') !! SecureMessage.id message = Some message.
Proof.
  apply (createMessage_sender_unchecked
           (MessagePayload.mk "camp-1" "user-root" "Budget approved")
           (UserPayload.mk "bob" Donor) (world_of staffed) primary bob root).
  - by vm_compute.
  - by vm_compute.
  - by vm_compute.
  - discriminate.
  - discriminate.
  - reflexivity.
  - reflexivity.
  - discriminate.
Defined.

(** ** Keys are generated identifiers *)

Section Identifiers.

Lemma issued_later (w w' : World) (key : text) :
  uuid_tape w' = uuid_tape w → (uuid_pos w ≤ uuid_pos w')%nat →
  issued w key → issued w' key.
Proof.
  intros Ht Hp (i & Hi & Hk). exists i. rewrite Ht. split; [lia | done].
Qed.

(** A call keeps the tape, moves forward on it, and stores under generated
    identifiers only. *)
Lemma keys_issued_preserved
  (req : Request) (w w' : World) (r : Completion (Result Value)) :
  Canister req w = (r, w') →
  keys_issued w →
  keys_issued w' ∧ uuid_tape w' = uuid_tape w ∧ (uuid_pos w ≤ uuid_pos w')%nat.
Proof.
  intros Hcall Hinv.
  assert (∀ key, key ∈ all_keys (stores w) →
                 ∃ i, (i < uuid_pos w)%nat ∧ uuid_tape w i = key) as Hold
    by exact Hinv.
  clear Hinv. unfold keys_issued, issued, all_keys in *.
  destruct req; run; branches; (split; [|split; [done | lia]]);
    cbn [stores uuid_tape uuid_pos campaigns donations expenses outreaches
         messages notifications users] in *;
    intros key Hkey;
    repeat match goal with
           | H : _ !! _ = Some _ |- _ =>
               pose proof (elem_of_dom_2 _ _ _ H); clear H
           end;
    set_unfold in Hkey; destruct_or!; subst;
    first [ by (eexists; split; [|reflexivity]; lia)
          | destruct (Hold key) as (i & Hi & Hk);
            [set_solver | exists i; split; [lia | done]]
          | match goal with
            | H : ?k ∈ dom _ |- ∃ i, _ ∧ _ = ?k =>
                destruct (Hold k) as (i & Hi & Hk);
                [set_solver | exists i; split; [lia | done]]
            end ].
Qed.

(** With identifiers that never repeat, the ones still to come are keys of
    no store. *)
Lemma upcoming_uuid_unused (w : World) (n : nat) :
  keys_issued w → uuids_unique w →
  uuid_tape w (uuid_pos w + n) ∉ all_keys (stores w).
Proof.
  intros Hinv Huniq Hin. destruct (Hinv _ Hin) as (i & Hi & Hk).
  apply Huniq in Hk. lia.
Qed.

(** In particular the identifier [createDonation] will give to its
    notification is not a key of the notification store. *)
Lemma notification_uuid_fresh (w : World) :
  keys_issued w → uuids_unique w →
  notifications (stores w) !! uuid_tape w (S (uuid_pos w)) = None.
Proof.
  intros Hinv Huniq. apply not_elem_of_dom.
  pose proof (upcoming_uuid_unused w 1 Hinv Huniq) as Hfresh.
  rewrite Nat.add_1_r in Hfresh. unfold all_keys in Hfresh. set_solver.
Qed.

(** The empty stores satisfy the invariant. *)
Lemma keys_issued_initial
  (uuids clock : nat → text) (principal : Principal) :
  keys_issued (mkWorld no_records uuids 0 clock 0 principal).
Proof.
  intros key Hkey. unfold all_keys in Hkey. cbn in Hkey.
  rewrite !dom_empty_L, !union_empty_l_L in Hkey.
  by apply not_elem_of_empty in Hkey.
Qed.

End Identifiers.

(** ** Invariants of the stores *)

Lemma le_0n_false (a : nat64) : le_0n a = false ↔ a ≠ 0%N.
Proof. unfold le_0n. rewrite N.leb_gt. lia. Qed.

(** Turns the tests a method passed into facts about the payload. *)
Ltac passed :=
  repeat match goal with
         | H : _ || _ = false |- _ => apply orb_false_iff in H as [? ?]
         | H : js_not_text _ = false |- _ => apply js_not_text_false in H
         | H : le_0n _ = false |- _ => apply le_0n_false in H
         | H : None_in _ = false |- _ => apply None_in_false in H
         | H : negb _ = false |- _ => apply negb_false_iff in H
         | H : tag_in _ _ = true |- _ => apply tag_in_true in H
         end.

(** A property of the values of a map survives storing a value that has it. *)
Lemma stored_insert {V : Type} (P : text → V → Prop) (m : gmap text V)
  (key : text) (v : V) :
  P key v → (∀ k x, m !! k = Some x → P k x) →
  ∀ k x, <[key := v]> m !! k = Some x → P k x.
Proof.
  intros Hv Hm k x Hk. apply lookup_insert_Some in Hk as [[<- <-]|[_ Hk]];
    [done | eauto].
Qed.

Lemma keyed_by_id_preserved
  (req : Request) (w w' : World) (r : Completion (Result Value)) :
  Canister req w = (r, w') →
  keyed_by_id (stores w) → keyed_by_id (stores w').
Proof.
  unfold keyed_by_id. intros Hcall (Hc & Hd & He & Ho & Hm & Hn & Hu).
  destruct req; run; branches; repeat split;
    try assumption; try (apply stored_insert; [|assumption]); try reflexivity.
  cbn. eauto.
Qed.

Lemma is_Some_insert_mono {V : Type} (m : gmap text V) (key k : text) (v : V) :
  is_Some (m !! k) → is_Some (<[key := v]> m !! k).
Proof. intros Hk. apply lookup_insert_is_Some'. by right. Qed.

Lemma not_found_None {A : Type} (u : option A) :
  negb (js_not_found u) = false → u = None.
Proof. by destruct u. Qed.

Lemma usernames_unique_preserved
  (req : Request) (w w' : World) (r : Completion (Result Value)) :
  Canister req w = (r, w') →
  usernames_unique (stores w) → usernames_unique (stores w').
Proof.
  unfold usernames_unique. intros Hcall Hinv.
  destruct req; run; branches; try assumption.
  match goal with H : negb (js_not_found _) = false |- _ =>
    apply not_found_None in H; rename H into Hfind end.
  assert (∀ k u, users (stores w) !! k = Some u →
                 User.username u ≠ UserPayload.username payload) as Hnew.
  { intros k u Hk Heq.
    pose proof (find_none _ _ Hfind u) as Hno. cbn in Hno.
    rewrite Heq, String.eqb_refl in Hno. discriminate Hno.
    apply In_values_of. eauto. }
  intros k1 k2 u1 u2 H1 H2 Heq.
  apply lookup_insert_Some in H1 as [[<- <-]|[Hk1 H1]];
    apply lookup_insert_Some in H2 as [[<- <-]|[Hk2 H2]]; cbn in Heq.
  - done.
  - by destruct (Hnew _ _ H2).
  - by destruct (Hnew _ _ H1).
  - eauto.
Qed.

Lemma fields_valid_preserved
  (req : Request) (w w' : World) (r : Completion (Result Value)) :
  Canister req w = (r, w') →
  fields_valid (stores w) → fields_valid (stores w').
Proof.
  unfold fields_valid. intros Hcall (Hc & Hd & He & Ho & Hm & Hu).
  destruct req; run; branches; passed; split_and!;
    try assumption; try (apply stored_insert; [|assumption]); cbn;
    try done.
Qed.

Lemma references_resolve_preserved
  (req : Request) (w w' : World) (r : Completion (Result Value)) :
  Canister req w = (r, w') →
  references_resolve (stores w) → references_resolve (stores w').
Proof.
  unfold references_resolve. intros Hcall (Hc & Hd & Hm).
  destruct req; run; branches; passed; split_and!;
    try assumption; intros k x Hk;
    try (apply lookup_insert_Some in Hk as [[<- <-]|[_ Hk]]); cbn;
    try (by eauto using is_Some_insert_mono);
    try (by apply is_Some_insert_mono; eauto);
    try (by apply Hm in Hk as [? ?]; eauto using is_Some_insert_mono).
Qed.

(** ** States the canister can reach *)

Lemma calls_snoc (cs : list Call) (c : Call) (w : World) :
  calls (cs ++ [c]) w = step (calls cs w) c.
Proof. unfold calls. by rewrite fold_left_app. Qed.

(** What holds when the canister is deployed and survives every call holds
    after every sequence of calls. *)
Lemma reachable_ind (P : World → Prop) (uuids clock : nat → text) :
  P (deployed uuids clock) →
  (∀ w c, P w → P (step w c)) →
  ∀ cs, P (calls cs (deployed uuids clock)).
Proof.
  intros Hinit Hstep cs. induction cs as [|c cs IH] using rev_ind.
  - exact Hinit.
  - rewrite calls_snoc. by apply Hstep.
Qed.

Lemma step_call (w : World) (c : Call) :
  Canister (request c) (with_caller (principal c) w)
  = (fst (Canister (request c) (with_caller (principal c) w)), step w c).
Proof. unfold step. by destruct (Canister _ _). Qed.

(** The four properties of the stores hold of the empty maps and survive a
    call, whoever calls. *)
Lemma keyed_by_id_deployed (uuids clock : nat → text) :
  keyed_by_id (stores (deployed uuids clock)).
Proof.
  unfold keyed_by_id. cbn. split_and!; intros k x Hk;
    by rewrite lookup_empty in Hk.
Qed.

Lemma keyed_by_id_step (w : World) (c : Call) :
  keyed_by_id (stores w) → keyed_by_id (stores (step w c)).
Proof. apply (keyed_by_id_preserved _ _ _ _ (step_call w c)). Qed.

Lemma usernames_unique_deployed (uuids clock : nat → text) :
  usernames_unique (stores (deployed uuids clock)).
Proof. intros k1 k2 u1 u2 Hk. cbn in Hk. by rewrite lookup_empty in Hk. Qed.

Lemma usernames_unique_step (w : World) (c : Call) :
  usernames_unique (stores w) → usernames_unique (stores (step w c)).
Proof. apply (usernames_unique_preserved _ _ _ _ (step_call w c)). Qed.

Lemma fields_valid_deployed (uuids clock : nat → text) :
  fields_valid (stores (deployed uuids clock)).
Proof.
  unfold fields_valid. cbn. split_and!; intros k x Hk;
    by rewrite lookup_empty in Hk.
Qed.

Lemma fields_valid_step (w : World) (c : Call) :
  fields_valid (stores w) → fields_valid (stores (step w c)).
Proof. apply (fields_valid_preserved _ _ _ _ (step_call w c)). Qed.

Lemma references_resolve_deployed (uuids clock : nat → text) :
  references_resolve (stores (deployed uuids clock)).
Proof.
  unfold references_resolve. cbn. split_and!; intros k x Hk;
    by rewrite lookup_empty in Hk.
Qed.

Lemma references_resolve_step (w : World) (c : Call) :
  references_resolve (stores w) → references_resolve (stores (step w c)).
Proof. apply (references_resolve_preserved _ _ _ _ (step_call w c)). Qed.

(** X6.  After any sequence of calls on the deployed canister, every record
    of every store sits under its own [id]. *)
Theorem reachable_keyed_by_id (uuids clock : nat → text) (cs : list Call) :
  keyed_by_id (stores (calls cs (deployed uuids clock))).
Proof.
  apply (reachable_ind (λ w, keyed_by_id (stores w)));
    [apply keyed_by_id_deployed | apply keyed_by_id_step].
Qed.

(** X7.  After any sequence of calls on the deployed canister, no two stored
    users carry the same username. *)
Theorem reachable_usernames_unique
  (uuids clock : nat → text) (cs : list Call) :
  usernames_unique (stores (calls cs (deployed uuids clock))).
Proof.
  apply (reachable_ind (λ w, usernames_unique (stores w)));
    [apply usernames_unique_deployed | apply usernames_unique_step].
Qed.

(** X8.  After any sequence of calls on the deployed canister, the validated
    fields are valid in every stored record: campaigns have a name and a
    description, donations a donor name and a positive amount, expenses a
    description and a positive amount, outreach records an activity, a date
    and a status, messages a sender and a content; and every user has [0]
    points. *)
Theorem reachable_fields_valid (uuids clock : nat → text) (cs : list Call) :
  fields_valid (stores (calls cs (deployed uuids clock))).
Proof.
  apply (reachable_ind (λ w, fields_valid (stores w)));
    [apply fields_valid_deployed | apply fields_valid_step].
Qed.

(** X9.  After any sequence of calls on the deployed canister, the creator of
    every campaign and the sender of every message are keys of the user
    store, and the campaign of every donation and of every message is a key
    of the campaign store. *)
Theorem reachable_references_resolve
  (uuids clock : nat → text) (cs : list Call) :
  references_resolve (stores (calls cs (deployed uuids clock))).
Proof.
  apply (reachable_ind (λ w, references_resolve (stores w)));
    [apply references_resolve_deployed | apply references_resolve_step].
Qed.

(** Every key of every store is an identifier [uuidv4()] gave out earlier,
    and the calls read the identifier tape they were deployed with. *)
Lemma reachable_keys_issued_tape
  (uuids clock : nat → text) (cs : list Call) :
  keys_issued (calls cs (deployed uuids clock))
  ∧ uuid_tape (calls cs (deployed uuids clock)) = uuids.
Proof.
  apply (reachable_ind (λ w, keys_issued w ∧ uuid_tape w = uuids)).
  - split; [exact (keys_issued_initial uuids clock "") | reflexivity].
  - intros w c [Hw Ht].
    destruct (keys_issued_preserved _ _ _ _ (step_call w c)) as (H1 & H2 & _).
    + intros key Hkey. exact (Hw key Hkey).
    + split; [exact H1 | by rewrite H2].
Qed.

(** X10.  After any sequence of calls on the deployed canister, every key of
    every store is an identifier [uuidv4()] handed out earlier. *)
Theorem reachable_keys_issued (uuids clock : nat → text) (cs : list Call) :
  ∀ key, key ∈ all_keys (stores (calls cs (deployed uuids clock))) →
         ∃ i, (i < uuid_pos (calls cs (deployed uuids clock)))%nat
              ∧ uuids i = key.
Proof.
  destruct (reachable_keys_issued_tape uuids clock cs) as [Hk Ht].
  intros key Hkey. destruct (Hk key Hkey) as (i & Hi & Hu).
  exists i. split; [exact Hi | congruence].
Qed.

Lemma reachable_keys_issued_witness :
  ∃ i, (i < uuid_pos after_campaign_day)%nat ∧ numbered_uuids i = "uuid-4".
Proof.
  apply (reachable_keys_issued numbered_uuids ticking_clock campaign_day
           "uuid-4").
  apply (bool_decide_unpack _). by vm_compute.
Defined.

(** ** Reading what was stored *)

(** X12.  After any sequence of calls on the deployed canister,
    [getDonationById] returns every stored donation: the answer for a
    missing campaign is never given. *)
Theorem reachable_getDonationById
  (uuids clock : nat → text) (cs : list Call) (donationId : text)
  (donation : Donation.t) :
  let w := calls cs (deployed uuids clock) in
  donations (stores w) !! donationId = Some donation →
  getDonationById donationId w = (Returns (Ok donation), w).
Proof.
  intros w Hd.
  destruct (reachable_ind (λ w, references_resolve (stores w)) uuids clock
              (references_resolve_deployed uuids clock)
              references_resolve_step cs) as (_ & Href & _).
  destruct (Href _ _ Hd) as [c Hc]. fold w in Hc.
  run. rewrite Hd; run. by rewrite Hc.
Qed.

Lemma reachable_getDonationById_witness :
  getDonationById "uuid-4" after_campaign_day
  = (Returns (Ok (Donation.mk "uuid-4" "uuid-1" "Bob" 50
                              "2024-05-01T10:00:00.6Z")),
     after_campaign_day).
Proof.
  apply (reachable_getDonationById numbered_uuids ticking_clock campaign_day).
  by vm_compute.
Defined.

(** X13.  After any sequence of calls on the deployed canister,
    [getUserByUsername] called with the username of a stored user returns
    that user. *)
Theorem reachable_getUserByUsername
  (uuids clock : nat → text) (cs : list Call) (key : text) (user : User.t) :
  let w := calls cs (deployed uuids clock) in
  users (stores w) !! key = Some user →
  getUserByUsername (User.username user) w = (Returns (Ok user), w).
Proof.
  intros w Hu.
  pose proof (reachable_ind (λ w, usernames_unique (stores w)) uuids clock
                (usernames_unique_deployed uuids clock)
                usernames_unique_step cs) as Huniq.
  fold w in Huniq. run.
  destruct (List.find _ _) as [found|] eqn:Hfind.
  - apply find_some in Hfind as [Hin Hname].
    apply In_values_of in Hin as [key' Hfound].
    apply String.eqb_eq in Hname.
    assert (key' = key) as -> by (by apply (Huniq _ _ _ _ Hfound Hu)).
    by simplify_eq.
  - pose proof (find_none _ _ Hfind user) as Hno. cbn in Hno.
    rewrite String.eqb_refl in Hno. discriminate Hno.
    apply In_values_of. eauto.
Qed.

Lemma reachable_getUserByUsername_witness :
  getUserByUsername "bob" after_campaign_day
  = (Returns (Ok (User.mk "uuid-3" "p-bob" "bob" Donor 0
                          "2024-05-01T10:00:00.5Z")),
     after_campaign_day).
Proof.
  apply (reachable_getUserByUsername numbered_uuids ticking_clock campaign_day
           "uuid-3"
           (User.mk "uuid-3" "p-bob" "bob" Donor 0 "2024-05-01T10:00:00.5Z")).
  by vm_compute.
Defined.

(** ** What a call may write *)

(** X2.  A call that throws has written nothing: the world it leaves is the
    world it found, so rolling the call back changes nothing. *)
Theorem throw_writes_nothing
  (req : Request) (w w' : World) (e : JsError) :
  Canister req w = (Throws e, w') → w' = w.
Proof. destruct req; run; intros Hcall; branches. Qed.

Lemma throw_writes_nothing_witness :
  snd (Canister (CreateCampaign
                   (CampaignPayload.mk "Primary 2024" "Door to door" "ghost"))
                (world_of staffed))
  = world_of staffed.
Proof.
  apply (throw_writes_nothing
           (CreateCampaign
              (CampaignPayload.mk "Primary 2024" "Door to door" "ghost"))
           (world_of staffed) _
           (TypeError "cannot read property 'role' of undefined")).
  by vm_compute.
Defined.

(** X3.  Each store is written by its own methods only: the user store by
    [createUser], the campaign store by [createCampaign] and
    [updateCampaign], the donation, expense, outreach and message stores by
    their [create] method, the notification store by the updates other than
    [createUser].  Whatever the reply, a call leaves every other store as it
    was. *)
Theorem writes_confined (req : Request) (w : World) :
  let s := stores w in
  let s' := stores (snd (Canister req w)) in
  (users s' = users s ∨ ∃ payload, req = CreateUser payload)
  ∧ (campaigns s' = campaigns s
     ∨ (∃ payload, req = CreateCampaign payload)
     ∨ (∃ campaignId payload, req = UpdateCampaign campaignId payload))
  ∧ (donations s' = donations s
     ∨ ∃ payload userPayload, req = CreateDonation payload userPayload)
  ∧ (expenses s' = expenses s
     ∨ ∃ payload userPayload, req = CreateExpense payload userPayload)
  ∧ (outreaches s' = outreaches s
     ∨ ∃ payload userPayload, req = CreateVoterOutreach payload userPayload)
  ∧ (messages s' = messages s
     ∨ ∃ payload userPayload, req = CreateMessage payload userPayload)
  ∧ (notifications s' = notifications s
     ∨ (is_update req = true ∧ ∀ payload, req ≠ CreateUser payload)).
Proof.
  cbv zeta. destruct (Canister req w) as [r w'] eqn:Hcall. cbn [snd].
  destruct req; run; branches; split_and!; eauto 6.
Qed.

(** X4.  A successful update other than [createUser] stores one
    notification: under the identifier [notifyParticipants] generated, the
    one that follows those the method took for its own record, with that
    identifier as [id], the campaign concerned, the text of the method and
    the clock reading [notifyParticipants] took first.  When that identifier
    is not yet a key, the notification store has exactly one record more.  A
    successful [createUser] or query leaves the notification store as it
    was. *)
Theorem success_announced
  (req : Request) (w w' : World) (v : Value) :
  Canister req w = (Returns (Ok v), w') →
  match announcement req v with
  | Some (campaignId, message) =>
      let notificationId :=
        uuid_tape w (uuid_pos w + ids_before_notice req) in
      let created_at :=
        clock_tape w (clock_pos w + readings_before_notice req) in
      notifications (stores w')
      = <[notificationId :=
            Notification.mk notificationId campaignId message created_at]>
          (notifications (stores w))
      ∧ (notifications (stores w) !! notificationId = None →
         size (notifications (stores w'))
         = S (size (notifications (stores w))))
  | None => notifications (stores w') = notifications (stores w)
  end.
Proof.
  destruct req; run; intros Hcall; branches;
    cbn [ids_before_notice readings_before_notice];
    rewrite ?Nat.add_succ_r, ?Nat.add_0_r;
    (split; [reflexivity | intros Hfresh; by apply map_size_insert_None]).
Qed.

Lemma success_announced_witness :
  let w := world_of staffed in
  let w' :=
    snd (Canister (CreateDonation (DonationPayload.mk "camp-1" "Bob" 50)
                                  (UserPayload.mk "bob" Donor)) w) in
  notifications (stores w')
  = <[ "uuid-1" :=
         Notification.mk "uuid-1" "camp-1" "New donation received."
                         "2024-05-01T10:00:00.001Z" ]>
      (notifications (stores w))
  ∧ (notifications (stores w) !! "uuid-1" = None →
     size (notifications (stores w')) = S (size (notifications (stores w)))).
Proof.
  cbv zeta.
  apply (success_announced
           (CreateDonation (DonationPayload.mk "camp-1" "Bob" 50)
                           (UserPayload.mk "bob" Donor))
           (world_of staffed) _
           (DonationValue (Donation.mk "uuid-0" "camp-1" "Bob" 50
                                       "2024-05-01T10:00:00.000Z"))).
  by vm_compute.
Defined.

(** X5.  No method removes a key from a store: the keys of each of the seven
    stores before a call are keys after it. *)
Theorem keys_never_removed (req : Request) (w : World) :
  let s := stores w in
  let s' := stores (snd (Canister req w)) in
  dom (campaigns s) ⊆ dom (campaigns s')
  ∧ dom (donations s) ⊆ dom (donations s')
  ∧ dom (expenses s) ⊆ dom (expenses s')
  ∧ dom (outreaches s) ⊆ dom (outreaches s')
  ∧ dom (messages s) ⊆ dom (messages s')
  ∧ dom (notifications s) ⊆ dom (notifications s')
  ∧ dom (users s) ⊆ dom (users s').
Proof.
  cbv zeta. destruct (Canister req w) as [r w'] eqn:Hcall. cbn [snd].
  destruct req; run; branches; split_and!;
    first [ done | apply dom_insert_subseteq ].
Qed.

Lemma numbered_uuids_unique (i j : nat) :
  numbered_uuids i = numbered_uuids j → i = j.
Proof.
  unfold numbered_uuids. cbn. intros [= Heq]. by apply (inj pretty).
Qed.

(** The next identifiers are keys of no store. *)
Lemma upcoming_uuid_fresh (w : World) (n : nat) :
  keys_issued w → uuids_unique w →
  let key := uuid_tape w (uuid_pos w + n) in
  campaigns (stores w) !! key = None
  ∧ donations (stores w) !! key = None
  ∧ expenses (stores w) !! key = None
  ∧ outreaches (stores w) !! key = None
  ∧ messages (stores w) !! key = None
  ∧ notifications (stores w) !! key = None
  ∧ users (stores w) !! key = None.
Proof.
  intros Hinv Huniq key.
  pose proof (upcoming_uuid_unused w n Hinv Huniq) as Hfresh.
  fold key in Hfresh. unfold all_keys in Hfresh.
  rewrite <- !not_elem_of_dom. set_solver.
Qed.

Lemma records_kept_by_call
  (req : Request) (w w' : World) (r : Completion (Result Value)) :
  keys_issued w → uuids_unique w →
  Canister req w = (r, w') →
  donations (stores w) ⊆ donations (stores w')
  ∧ expenses (stores w) ⊆ expenses (stores w')
  ∧ outreaches (stores w) ⊆ outreaches (stores w')
  ∧ messages (stores w) ⊆ messages (stores w')
  ∧ notifications (stores w) ⊆ notifications (stores w')
  ∧ users (stores w) ⊆ users (stores w')
  ∧ ∀ key before,
      campaigns (stores w) !! key = Some before →
      ∃ after,
        campaigns (stores w') !! key = Some after
        ∧ Campaign.id after = Campaign.id before
        ∧ Campaign.created_at after = Campaign.created_at before.
Proof.
  intros Hinv Huniq Hcall.
  pose proof (upcoming_uuid_fresh w 0 Hinv Huniq) as Hnow.
  pose proof (upcoming_uuid_fresh w 1 Hinv Huniq) as Hnext.
  rewrite Nat.add_0_r in Hnow. rewrite Nat.add_1_r in Hnext.
  cbv zeta in Hnow, Hnext.
  destruct Hnow as (Hc0 & Hd0 & He0 & Ho0 & Hm0 & Hn0 & Hu0).
  destruct Hnext as (_ & _ & _ & _ & _ & Hn1 & _).
  destruct req; run; branches; split_and!;
    try done; try (by apply insert_subseteq);
    intros key before Hbefore;
    first
      [ by eauto
      | match goal with
        | |- ∃ _, <[?k := _]> _ !! key = _ ∧ _ =>
            destruct (decide (key = k)) as [->|Hne];
            [ first [ congruence
                    | rewrite lookup_insert_eq; eexists; split; [done|];
                      by simplify_eq ]
            | rewrite lookup_insert_ne by done; eauto ]
        end ].
Qed.

(** X11.  When [uuidv4()] never repeats an identifier, a call on a reachable
    state overwrites no donation, expense, outreach record, message,
    notification or user, and every campaign stays under its key with the
    [id] and [created_at] it had. *)
Theorem records_never_overwritten
  (uuids clock : nat → text) (cs : list Call) (c : Call) :
  (∀ i j, uuids i = uuids j → i = j) →
  let w := calls cs (deployed uuids clock) in
  let w' := step w c in
  donations (stores w) ⊆ donations (stores w')
  ∧ expenses (stores w) ⊆ expenses (stores w')
  ∧ outreaches (stores w) ⊆ outreaches (stores w')
  ∧ messages (stores w) ⊆ messages (stores w')
  ∧ notifications (stores w) ⊆ notifications (stores w')
  ∧ users (stores w) ⊆ users (stores w')
  ∧ ∀ key before,
      campaigns (stores w) !! key = Some before →
      ∃ after,
        campaigns (stores w') !! key = Some after
        ∧ Campaign.id after = Campaign.id before
        ∧ Campaign.created_at after = Campaign.created_at before.
Proof.
  intros Hinj w w'.
  destruct (reachable_keys_issued_tape uuids clock cs) as [Hkeys Htape].
  fold w in Hkeys, Htape.
  apply (records_kept_by_call (request c) (with_caller (principal c) w) w'
           (fst (Canister (request c) (with_caller (principal c) w)))).
  - intros key Hkey. exact (Hkeys key Hkey).
  - intros i j Hij. cbn in Hij. rewrite Htape in Hij. by apply Hinj.
  - apply step_call.
Qed.

Lemma records_never_overwritten_witness :
  let w := after_campaign_day in
  let w' :=
    step w (mkCall "p-alice"
              (UpdateCampaign "uuid-1"
                 (CampaignPayload.mk "General 2024" "Phone bank" "uuid-0"))) in
  donations (stores w) ⊆ donations (stores w')
  ∧ expenses (stores w) ⊆ expenses (stores w')
  ∧ outreaches (stores w) ⊆ outreaches (stores w')
  ∧ messages (stores w) ⊆ messages (stores w')
  ∧ notifications (stores w) ⊆ notifications (stores w')
  ∧ users (stores w) ⊆ users (stores w')
  ∧ ∀ key before,
      campaigns (stores w) !! key = Some before →
      ∃ after,
        campaigns (stores w') !! key = Some after
        ∧ Campaign.id after = Campaign.id before
        ∧ Campaign.created_at after = Campaign.created_at before.
Proof.
  apply (records_never_overwritten numbered_uuids ticking_clock campaign_day).
  exact numbered_uuids_unique.
Defined.

(** ** What a success guarantees *)

(** X18.  When [createDonation] returns [Ok]: the caller's username resolved
    to a donor, the donor name was given, the amount was positive, the
    campaign was stored; the donation carries the payload, the generated
    identifier and the clock reading, and is what the donation store gained. *)
Theorem createDonation_Ok_inv
  (payload : DonationPayload.t) (userPayload : UserPayload.t) (w w' : World)
  (donation : Donation.t) :
  createDonation payload userPayload w = (Returns (Ok donation), w') →
  (∃ donor,
     resolve_caller (UserPayload.username userPayload) (stores w) = Some donor
     ∧ User.role donor = Donor)
  ∧ DonationPayload.donor_name payload ≠ ""
  ∧ DonationPayload.amount payload ≠ 0%N
  ∧ is_Some (campaigns (stores w) !! DonationPayload.campaign_id payload)
  ∧ donation
    = Donation.mk (uuid_tape w (uuid_pos w))
                  (DonationPayload.campaign_id payload)
                  (DonationPayload.donor_name payload)
                  (DonationPayload.amount payload)
                  (clock_tape w (clock_pos w))
  ∧ donations (stores w')
    = <[Donation.id donation := donation]> (donations (stores w)).
Proof.
  unfold resolve_caller. run. intros Hcall. branches. passed.
  split_and!; eauto.
Qed.

Lemma createDonation_Ok_inv_witness :
  let payload := DonationPayload.mk "camp-1" "Bob" 50 in
  let w := world_of staffed in
  let w' := snd (createDonation payload (UserPayload.mk "bob" Donor) w) in
  let donation :=
    Donation.mk "uuid-0" "camp-1" "Bob" 50 "2024-05-01T10:00:00.000Z" in
  (∃ donor,
     resolve_caller "bob" (stores w) = Some donor ∧ User.role donor = Donor)
  ∧ DonationPayload.donor_name payload ≠ ""
  ∧ DonationPayload.amount payload ≠ 0%N
  ∧ is_Some (campaigns (stores w) !! DonationPayload.campaign_id payload)
  ∧ donation
    = Donation.mk (uuid_tape w (uuid_pos w))
                  (DonationPayload.campaign_id payload)
                  (DonationPayload.donor_name payload)
                  (DonationPayload.amount payload)
                  (clock_tape w (clock_pos w))
  ∧ donations (stores w')
    = <[Donation.id donation := donation]> (donations (stores w)).
Proof.
  cbv zeta.
  apply (createDonation_Ok_inv (DonationPayload.mk "camp-1" "Bob" 50)
           (UserPayload.mk "bob" Donor) (world_of staffed)).
  by vm_compute.
Defined.

(** X19.  When [createExpense] returns [Ok]: the caller's username resolved
    to an admin, the description was given, the amount was positive; the
    expense carries the payload, the generated identifier and the clock
    reading, and is what the expense store gained. *)
Theorem createExpense_Ok_inv
  (payload : ExpensePayload.t) (userPayload : UserPayload.t) (w w' : World)
  (expense : Expense.t) :
  createExpense payload userPayload w = (Returns (Ok expense), w') →
  (∃ admin,
     resolve_caller (UserPayload.username userPayload) (stores w) = Some admin
     ∧ User.role admin = Admin)
  ∧ ExpensePayload.description payload ≠ ""
  ∧ ExpensePayload.amount payload ≠ 0%N
  ∧ expense
    = Expense.mk (uuid_tape w (uuid_pos w))
                 (ExpensePayload.campaign_id payload)
                 (ExpensePayload.description payload)
                 (ExpensePayload.amount payload)
                 (clock_tape w (clock_pos w))
  ∧ expenses (stores w')
    = <[Expense.id expense := expense]> (expenses (stores w)).
Proof.
  unfold resolve_caller. run. intros Hcall. branches. passed.
  split_and!; eauto.
Qed.

(** X20.  When [createVoterOutreach] returns [Ok]: the caller's username
    resolved to a stored user and activity, date and status were given; the
    record carries the payload, the generated identifier and the clock
    reading, and is what the outreach store gained. *)
Theorem createVoterOutreach_Ok_inv
  (payload : VoterOutreachPayload.t) (userPayload : UserPayload.t)
  (w w' : World) (outreach : VoterOutreach.t) :
  createVoterOutreach payload userPayload w = (Returns (Ok outreach), w') →
  is_Some (resolve_caller (UserPayload.username userPayload) (stores w))
  ∧ VoterOutreachPayload.activity payload ≠ ""
  ∧ VoterOutreachPayload.date payload ≠ ""
  ∧ VoterOutreachPayload.status payload ≠ ""
  ∧ outreach
    = VoterOutreach.mk (uuid_tape w (uuid_pos w))
                       (VoterOutreachPayload.campaign_id payload)
                       (VoterOutreachPayload.activity payload)
                       (VoterOutreachPayload.date payload)
                       (VoterOutreachPayload.status payload)
                       (clock_tape w (clock_pos w))
  ∧ outreaches (stores w')
    = <[VoterOutreach.id outreach := outreach]> (outreaches (stores w)).
Proof.
  unfold resolve_caller. run. intros Hcall.
  destruct (List.find _ _) eqn:Hfind; cbn [js_not_found] in Hcall;
    [|discriminate Hcall].
  branches. passed. split_and!; eauto.
Qed.

(** X21.  When [createMessage] returns [Ok]: the caller's username resolved
    to a stored user, sender and content were given, the sender is a key of
    the user store and the campaign a key of the campaign store; the message
    carries the payload, the generated identifier and the clock reading, and
    is what the message store gained. *)
Theorem createMessage_Ok_inv
  (payload : MessagePayload.t) (userPayload : UserPayload.t) (w w' : World)
  (message : SecureMessage.t) :
  createMessage payload userPayload w = (Returns (Ok message), w') →
  is_Some (resolve_caller (UserPayload.username userPayload) (stores w))
  ∧ MessagePayload.sender payload ≠ ""
  ∧ MessagePayload.content payload ≠ ""
  ∧ is_Some (users (stores w) !! MessagePayload.sender payload)
  ∧ is_Some (campaigns (stores w) !! MessagePayload.campaign_id payload)
  ∧ message
    = SecureMessage.mk (uuid_tape w (uuid_pos w))
                       (MessagePayload.campaign_id payload)
                       (MessagePayload.sender payload)
                       (MessagePayload.content payload)
                       (clock_tape w (clock_pos w))
  ∧ messages (stores w')
    = <[SecureMessage.id message := message]> (messages (stores w)).
Proof.
  unfold resolve_caller. run. intros Hcall.
  destruct (List.find _ _) eqn:Hfind; cbn [js_not_found] in Hcall;
    [|discriminate Hcall].
  branches. passed. split_and!; eauto.
Qed.

(** X22.  When [createCampaign] or [updateCampaign] returns [Ok]: name and
    description were given and the payload's [created_by] is the key of a
    stored admin or campaign manager. *)
Theorem campaign_write_Ok_inv
  (payload : CampaignPayload.t) (w w' : World) (campaign : Campaign.t) :
  (createCampaign payload w = (Returns (Ok campaign), w')
   ∨ ∃ campaignId,
       updateCampaign campaignId payload w = (Returns (Ok campaign), w')) →
  CampaignPayload.name payload ≠ ""
  ∧ CampaignPayload.description payload ≠ ""
  ∧ ∃ creator,
      users (stores w) !! CampaignPayload.created_by payload = Some creator
      ∧ (User.role creator = Admin ∨ User.role creator = CampaignManager).
Proof.
  intros [Hcall | [campaignId Hcall]]; revert Hcall; run; intros Hcall;
    branches; passed; (split_and!; [done | done |]);
    eexists; (split; [done|]);
    match goal with
    | H : _ || _ = true |- _ =>
        apply orb_true_iff in H as [H|H]; apply tag_in_true in H; auto
    end.
Qed.

Lemma createExpense_Ok_inv_witness :
  let payload := ExpensePayload.mk "camp-1" "Flyers" 25 in
  let w := world_of staffed in
  let w' := snd (createExpense payload (UserPayload.mk "root" Admin) w) in
  let expense :=
    Expense.mk "uuid-0" "camp-1" "Flyers" 25 "2024-05-01T10:00:00.000Z" in
  (∃ admin,
     resolve_caller "root" (stores w) = Some admin ∧ User.role admin = Admin)
  ∧ ExpensePayload.description payload ≠ ""
  ∧ ExpensePayload.amount payload ≠ 0%N
  ∧ expense
    = Expense.mk (uuid_tape w (uuid_pos w))
                 (ExpensePayload.campaign_id payload)
                 (ExpensePayload.description payload)
                 (ExpensePayload.amount payload)
                 (clock_tape w (clock_pos w))
  ∧ expenses (stores w')
    = <[Expense.id expense := expense]> (expenses (stores w)).
Proof.
  cbv zeta.
  apply (createExpense_Ok_inv (ExpensePayload.mk "camp-1" "Flyers" 25)
           (UserPayload.mk "root" Admin) (world_of staffed)).
  by vm_compute.
Defined.

Lemma createVoterOutreach_Ok_inv_witness :
  let payload :=
    VoterOutreachPayload.mk "camp-1" "Canvassing" "2024-05-04" "planned" in
  let w := world_of staffed in
  let w' :=
    snd (createVoterOutreach payload (UserPayload.mk "bob" Donor) w) in
  let outreach :=
    VoterOutreach.mk "uuid-0" "camp-1" "Canvassing" "2024-05-04" "planned"
                     "2024-05-01T10:00:00.000Z" in
  is_Some (resolve_caller "bob" (stores w))
  ∧ VoterOutreachPayload.activity payload ≠ ""
  ∧ VoterOutreachPayload.date payload ≠ ""
  ∧ VoterOutreachPayload.status payload ≠ ""
  ∧ outreach
    = VoterOutreach.mk (uuid_tape w (uuid_pos w))
                       (VoterOutreachPayload.campaign_id payload)
                       (VoterOutreachPayload.activity payload)
                       (VoterOutreachPayload.date payload)
                       (VoterOutreachPayload.status payload)
                       (clock_tape w (clock_pos w))
  ∧ outreaches (stores w')
    = <[VoterOutreach.id outreach := outreach]> (outreaches (stores w)).
Proof.
  cbv zeta.
  apply (createVoterOutreach_Ok_inv
           (VoterOutreachPayload.mk "camp-1" "Canvassing" "2024-05-04"
                                    "planned")
           (UserPayload.mk "bob" Donor) (world_of staffed)).
  by vm_compute.
Defined.

Lemma createMessage_Ok_inv_witness :
  let payload := MessagePayload.mk "camp-1" "user-root" "Budget approved" in
  let w := world_of staffed in
  let w' := snd (createMessage payload (UserPayload.mk "bob" Donor) w) in
  let message :=
    SecureMessage.mk "uuid-0" "camp-1" "user-root" "Budget approved"
                     "2024-05-01T10:00:00.000Z" in
  is_Some (resolve_caller "bob" (stores w))
  ∧ MessagePayload.sender payload ≠ ""
  ∧ MessagePayload.content payload ≠ ""
  ∧ is_Some (users (stores w) !! MessagePayload.sender payload)
  ∧ is_Some (campaigns (stores w) !! MessagePayload.campaign_id payload)
  ∧ message
    = SecureMessage.mk (uuid_tape w (uuid_pos w))
                       (MessagePayload.campaign_id payload)
                       (MessagePayload.sender payload)
                       (MessagePayload.content payload)
                       (clock_tape w (clock_pos w))
  ∧ messages (stores w')
    = <[SecureMessage.id message := message]> (messages (stores w)).
Proof.
  cbv zeta.
  apply (createMessage_Ok_inv
           (MessagePayload.mk "camp-1" "user-root" "Budget approved")
           (UserPayload.mk "bob" Donor) (world_of staffed)).
  by vm_compute.
Defined.

Lemma campaign_write_Ok_inv_witness :
  let payload := CampaignPayload.mk "General 2024" "Phone bank" "user-root" in
  let w := world_of staffed in
  CampaignPayload.name payload ≠ ""
  ∧ CampaignPayload.description payload ≠ ""
  ∧ ∃ creator,
      users (stores w) !! CampaignPayload.created_by payload = Some creator
      ∧ (User.role creator = Admin ∨ User.role creator = CampaignManager).
Proof.
  cbv zeta.
  apply (campaign_write_Ok_inv
           (CampaignPayload.mk "General 2024" "Phone bank" "user-root")
           (world_of staffed)
           (snd (updateCampaign "camp-1"
                   (CampaignPayload.mk "General 2024" "Phone bank" "user-root")
                   (world_of staffed)))
           (Campaign.mk "camp-1" "General 2024" "Phone bank" "user-root"
                        "2024-04-30T10:00:00.000Z"
                        "2024-05-01T10:00:00.000Z")).
  right. exists "camp-1". by vm_compute.
Defined.

(** ** The order of the checks *)

(** X23.  [createCampaign] with an empty name or an empty description answers
    [InvalidPayload] and changes nothing, whoever the creator is, known or
    not. *)
Theorem createCampaign_empty_field
  (payload : CampaignPayload.t) (w : World) :
  CampaignPayload.name payload = ""
  ∨ CampaignPayload.description payload = "" →
  ∃ msg, createCampaign payload w = (Returns (Err (InvalidPayload msg)), w).
Proof.
  intros Hempty. run.
  assert (js_not_text (CampaignPayload.name payload)
          || js_not_text (CampaignPayload.description payload) = true) as Ht.
  { destruct Hempty as [-> | ->]; [done | apply orb_true_r]. }
  cbn [orb] in Ht. rewrite Ht. eauto.
Qed.

Lemma createCampaign_empty_field_witness :
  ∃ msg,
    createCampaign (CampaignPayload.mk "" "Door to door" "ghost")
                   (world_of staffed)
    = (Returns (Err (InvalidPayload msg)), world_of staffed).
Proof.
  apply (createCampaign_empty_field
           (CampaignPayload.mk "" "Door to door" "ghost") (world_of staffed)).
  by left.
Defined.

(** X24.  With name and description given and a creator who is a stored
    donor, [createCampaign] answers [Unauthorized], and so does
    [updateCampaign] on every stored campaign; nothing is changed. *)
Theorem campaign_write_unauthorised
  (payload : CampaignPayload.t) (w : World) (creator : User.t) :
  CampaignPayload.name payload ≠ "" →
  CampaignPayload.description payload ≠ "" →
  users (stores w) !! CampaignPayload.created_by payload = Some creator →
  User.role creator = Donor →
  (∃ msg, createCampaign payload w = (Returns (Err (Unauthorized msg)), w))
  ∧ ∀ campaignId,
      is_Some (campaigns (stores w) !! campaignId) →
      ∃ msg,
        updateCampaign campaignId payload w
        = (Returns (Err (Unauthorized msg)), w).
Proof.
  intros Hn Hd Hu Hrole. apply js_not_text_false in Hn, Hd. split.
  - run. rewrite Hn, Hd; run. rewrite Hu; run. rewrite Hrole. cbn. eauto.
  - intros campaignId [c Hc]. run. rewrite Hc, Hn, Hd; run.
    rewrite Hu; run. rewrite Hrole. cbn. eauto.
Qed.

Lemma campaign_write_unauthorised_witness :
  let payload := CampaignPayload.mk "Primary 2024" "Door to door" "user-bob" in
  let w := world_of staffed in
  (∃ msg, createCampaign payload w = (Returns (Err (Unauthorized msg)), w))
  ∧ ∀ campaignId,
      is_Some (campaigns (stores w) !! campaignId) →
      ∃ msg,
        updateCampaign campaignId payload w
        = (Returns (Err (Unauthorized msg)), w).
Proof.
  cbv zeta.
  apply (campaign_write_unauthorised
           (CampaignPayload.mk "Primary 2024" "Door to door" "user-bob")
           (world_of staffed) bob).
  - discriminate.
  - discriminate.
  - by vm_compute.
  - reflexivity.
Defined.

(** X25.  When no stored user carries the caller's username, [createDonation],
    [createExpense], [createVoterOutreach] and [createMessage] answer
    [Unauthorized] whatever the payload, and change nothing. *)
Theorem caller_checked_first
  (userPayload : UserPayload.t) (w : World) :
  resolve_caller (UserPayload.username userPayload) (stores w) = None →
  (∀ payload, ∃ msg,
     createDonation payload userPayload w
     = (Returns (Err (Unauthorized msg)), w))
  ∧ (∀ payload, ∃ msg,
       createExpense payload userPayload w
       = (Returns (Err (Unauthorized msg)), w))
  ∧ (∀ payload, ∃ msg,
       createVoterOutreach payload userPayload w
       = (Returns (Err (Unauthorized msg)), w))
  ∧ (∀ payload, ∃ msg,
       createMessage payload userPayload w
       = (Returns (Err (Unauthorized msg)), w)).
Proof.
  unfold resolve_caller. intros Hnone.
  split_and!; intros payload; run; rewrite Hnone; cbn; eauto.
Qed.

Lemma caller_checked_first_witness :
  let userPayload := UserPayload.mk "mallory" Admin in
  let w := world_of staffed in
  (∀ payload, ∃ msg,
     createDonation payload userPayload w
     = (Returns (Err (Unauthorized msg)), w))
  ∧ (∀ payload, ∃ msg,
       createExpense payload userPayload w
       = (Returns (Err (Unauthorized msg)), w))
  ∧ (∀ payload, ∃ msg,
       createVoterOutreach payload userPayload w
       = (Returns (Err (Unauthorized msg)), w))
  ∧ (∀ payload, ∃ msg,
       createMessage payload userPayload w
       = (Returns (Err (Unauthorized msg)), w)).
Proof.
  cbv zeta.
  apply (caller_checked_first (UserPayload.mk "mallory" Admin)
           (world_of staffed)).
  by vm_compute.
Defined.

(** X26.  The role is checked before the payload: unless the caller resolves
    to a donor, [createDonation] answers [Unauthorized] whatever the payload,
    and unless the caller resolves to an admin, so does [createExpense];
    nothing is changed. *)
Theorem role_checked_before_payload
  (userPayload : UserPayload.t) (w : World) (user : User.t)
  (donation : DonationPayload.t) (expense : ExpensePayload.t) :
  resolve_caller (UserPayload.username userPayload) (stores w) = Some user →
  (User.role user = Donor
   ∨ ∃ msg, createDonation donation userPayload w
            = (Returns (Err (Unauthorized msg)), w))
  ∧ (User.role user = Admin
     ∨ ∃ msg, createExpense expense userPayload w
              = (Returns (Err (Unauthorized msg)), w)).
Proof.
  unfold resolve_caller. intros Hres.
  split; run; rewrite Hres; run;
    destruct (User.role user); cbn; eauto.
Qed.

Lemma role_checked_before_payload_witness :
  (User.role alice = Donor
   ∨ ∃ msg, createDonation (DonationPayload.mk "camp-1" "" 0)
                           (UserPayload.mk "alice" Donor) (world_of staffed)
            = (Returns (Err (Unauthorized msg)), world_of staffed))
  ∧ (User.role alice = Admin
     ∨ ∃ msg, createExpense (ExpensePayload.mk "camp-1" "" 0)
                            (UserPayload.mk "alice" Admin) (world_of staffed)
              = (Returns (Err (Unauthorized msg)), world_of staffed)).
Proof.
  apply (role_checked_before_payload (UserPayload.mk "alice" Donor)
           (world_of staffed) alice).
  by vm_compute.
Defined.

(** ** The list queries *)

Lemma filter_exact {V : Type} (m : gmap text V) (campaign_of : V → text)
  (campaignId : text) :
  let found :=
    List.filter (λ x, (campaign_of x =? campaignId)%string)
                (Map.values_of m) in
  (found = [] → ∀ k x, m !! k = Some x → campaign_of x ≠ campaignId)
  ∧ ∀ x, In x found ↔ (∃ k, m !! k = Some x) ∧ campaign_of x = campaignId.
Proof.
  cbv zeta. split.
  - intros Hf k x Hk Heq.
    assert (In x []) as []. rewrite <- Hf. apply filter_In.
    split; [apply In_values_of; eauto | by apply String.eqb_eq].
  - intros x. by rewrite filter_In, In_values_of, String.eqb_eq.
Qed.

(** X16.  Each of the five by-campaign queries leaves the world as it was and
    answers either [Ok] with a non-empty list holding exactly the stored
    records of that campaign, or [NotFound] when the store holds no record
    of the campaign. *)
Theorem by_campaign_queries_exact (campaignId : text) (w : World) :
  lists_campaign (donations (stores w)) Donation.campaign_id campaignId
                 (getDonationsByCampaignId campaignId w) w
  ∧ lists_campaign (expenses (stores w)) Expense.campaign_id campaignId
                   (getExpensesByCampaignId campaignId w) w
  ∧ lists_campaign (outreaches (stores w)) VoterOutreach.campaign_id
                   campaignId (getVoterOutreachByCampaignId campaignId w) w
  ∧ lists_campaign (messages (stores w)) SecureMessage.campaign_id
                   campaignId (getMessagesBycampaignId campaignId w) w
  ∧ lists_campaign (notifications (stores w)) Notification.campaign_id
                   campaignId (getNotificationsByCampaignId campaignId w) w.
Proof.
  split_and!; unfold lists_campaign; run;
    match goal with
    | |- context [List.filter (λ x, (?f x =? _)%string) (Map.values_of ?m)] =>
        destruct (filter_exact m f campaignId) as [Hnone Hall];
        cbv zeta in Hnone, Hall
    end;
    destruct (List.filter _ _) as [|x0 found]; cbn; (split; [done|]);
    (split; [done|]); first [ exact (Hnone eq_refl) | exact Hall ].
Qed.

Lemma values_of_length {V : Type} (m : gmap text V) :
  length (Map.values_of m) = size m.
Proof. unfold Map.values_of. by rewrite length_fmap, length_map_to_list. Qed.

(** X17.  [getUsers] and [getCampaigns] leave the world as it was and answer
    [NotFound] exactly when their store is empty, and otherwise [Ok] with
    every stored record, as many as the store has keys. *)
Theorem getUsers_getCampaigns_exact (w : World) :
  lists_all (users (stores w)) (getUsers w) w
  ∧ lists_all (campaigns (stores w)) (getCampaigns w) w.
Proof.
  split; unfold lists_all; run;
    match goal with
    | |- context [Map.values_of ?m] =>
        pose proof (values_of_length m) as Hlen;
        pose proof (In_values_of m) as Hin
    end;
    destruct (Map.values_of _) as [|x0 found]; cbn in *; (split; [done|]).
  all: try (split; [done|]; apply map_size_empty_iff; done).
  all: split_and!; [|done|done].
  all: intros Hempty; rewrite Hempty, map_size_empty in Hlen; done.
Qed.

(** ** Storing and reading back *)

Lemma find_filter_head {V : Type} (f : V → bool) (l : list V) (x : V) :
  List.filter f l = [x] → List.find f l = Some x.
Proof.
  induction l as [|y l IH]; cbn; [done|].
  destruct (f y); [by intros [= ->] | exact IH].
Qed.

(** After a value is stored, the values that pass a test it passes and
    none of the earlier values passed are that value alone. *)
Lemma filter_insert_only {V : Type} (f : V → bool) (m : gmap text V)
  (key : text) (v : V) :
  f v = true →
  List.filter f (Map.values_of m) = [] →
  List.filter f (Map.values_of (<[key := v]> m)) = [v].
Proof.
  intros Hv Hnone. apply Permutation_singleton_r.
  rewrite (filter_perm _ _ _ (values_of_insert _ _ _)).
  cbn [List.filter]. rewrite Hv.
  rewrite filter_none; [done|].
  intros x Hx. apply In_values_of_delete in Hx.
  destruct (f x) eqn:Hfx; [|done].
  assert (In x []) as []. rewrite <- Hnone. apply filter_In. auto.
Qed.

(** X14.  The user a successful [createUser] returns is the one
    [getUserByUsername] then finds under the payload's username. *)
Theorem createUser_getUserByUsername
  (payload : UserPayload.t) (w w1 : World) (user : User.t) :
  createUser payload w = (Returns (Ok user), w1) →
  getUserByUsername (UserPayload.username payload) w1
  = (Returns (Ok user), w1).
Proof.
  intros Hcall. run.
  match type of Hcall with
  | context [List.find ?f ?l] => destruct (List.find f l) eqn:Hfind
  end; cbn [js_not_found negb] in Hcall; [discriminate Hcall|].
  simplify_eq. run.
  apply find_none_filter in Hfind.
  erewrite find_filter_head; [done|].
  apply (filter_insert_only
           (λ u, (User.username u =? UserPayload.username payload)%string));
    [apply String.eqb_refl | exact Hfind].
Qed.

Lemma createUser_getUserByUsername_witness :
  let w1 := snd (createUser (UserPayload.mk "carol" Donor) (world_of staffed)) in
  getUserByUsername "carol" w1
  = (Returns (Ok (User.mk "uuid-0" "aaaaa-aa" "carol" Donor 0
                          "2024-05-01T10:00:00.000Z")), w1).
Proof.
  cbv zeta.
  apply (createUser_getUserByUsername (UserPayload.mk "carol" Donor)
           (world_of staffed)).
  by vm_compute.
Defined.

(** X15.  When [getDonationsByCampaignId] answers [NotFound] for a campaign
    and [createDonation] for that campaign then succeeds,
    [getDonationsByCampaignId] returns the list holding that donation
    alone. *)
Theorem first_donation_listed
  (payload : DonationPayload.t) (userPayload : UserPayload.t) (w w' : World)
  (donation : Donation.t) :
  createDonation payload userPayload w = (Returns (Ok donation), w') →
  (∃ msg,
     getDonationsByCampaignId (DonationPayload.campaign_id payload) w
     = (Returns (Err (NotFound msg)), w)) →
  getDonationsByCampaignId (DonationPayload.campaign_id payload) w'
  = (Returns (Ok [donation]), w').
Proof.
  intros Hcall [msg Hbefore].
  assert (Donation.campaign_id donation = DonationPayload.campaign_id payload
          ∧ ∃ key, donations (stores w')
                   = <[key := donation]> (donations (stores w)))
    as [Hcampaign [key Hstored]].
  { revert Hcall. clear. run. intros Hcall. branches. eauto. }
  assert (List.filter
            (λ d, (Donation.campaign_id d
                   =? DonationPayload.campaign_id payload)%string)
            (Map.values_of (donations (stores w))) = []) as Hnone.
  { revert Hbefore. clear. run. intros Hbefore.
    destruct (List.filter _ _); [done | discriminate Hbefore]. }
  clear Hcall Hbefore. run. rewrite Hstored.
  rewrite (filter_insert_only _ _ key donation); [done | | exact Hnone].
  rewrite Hcampaign. apply String.eqb_refl.
Qed.

Lemma first_donation_listed_witness :
  let payload := DonationPayload.mk "camp-1" "Bob" 50 in
  let w := world_of staffed in
  let w' := snd (createDonation payload (UserPayload.mk "bob" Donor) w) in
  getDonationsByCampaignId "camp-1" w'
  = (Returns (Ok [Donation.mk "uuid-0" "camp-1" "Bob" 50
                              "2024-05-01T10:00:00.000Z"]), w').
Proof.
  cbv zeta.
  apply (first_donation_listed (DonationPayload.mk "camp-1" "Bob" 50)
           (UserPayload.mk "bob" Donor) (world_of staffed)).
  - by vm_compute.
  - eexists. by vm_compute.
Defined.

(** ** Evidence for the earlier statements *)

Lemma query_returns_witness :
  ∃ r,
    Canister (GetCampaignById "camp-1") (world_of staffed)
    = (Returns r, world_of staffed).
Proof. apply (query_returns (GetCampaignById "camp-1")). reflexivity. Defined.

Lemma createCampaign_authorised_witness :
  let payload := CampaignPayload.mk "General 2024" "Phone bank" "user-root" in
  let w := world_of staffed in
  ∃ campaign w',
    createCampaign payload w = (Returns (Ok campaign), w')
    ∧ Campaign.id campaign = uuid_tape w (uuid_pos w)
    ∧ Campaign.updated_at campaign = clock_tape w (clock_pos w)
    ∧ Campaign.created_at campaign = clock_tape w (S (clock_pos w))
    ∧ getCampaignById (Campaign.id campaign) w' = (Returns (Ok campaign), w').
Proof.
  cbv zeta.
  apply (createCampaign_authorised
           (CampaignPayload.mk "General 2024" "Phone bank" "user-root")
           (world_of staffed) root).
  - discriminate.
  - discriminate.
  - by vm_compute.
  - by left.
Defined.
